(** * serlogger: serial temperature / CO2 logger

    A shallow embedding of [serlogger.py] and the properties of its
    acquisition step [readData], of the timer callback [update_plot] and of
    a whole live session.

    Layout: the Python builtins the script calls ([str.strip], [str.split],
    [float], ['%.2f' %], float subtraction, list slicing), then the script
    itself over an explicit world (the three global lists, the CSV file and
    the standard output), then the theorems. *)

From Stdlib Require Import ZArith NArith List String Ascii Bool Lia.
From Stdlib Require Import Sorted.
From Stdlib Require Import SpecFloat.
Import ListNotations.

Local Open Scope string_scope.
Local Open Scope list_scope.

(** ** Python text

    A decoded line is a [string]; a character stands for a code point
    below 256, which covers the ASCII wire format ["<temp>,<co2>\n"]. *)
Module PyStr.

(** [str.isspace] on one code point below 256. *)
Definition isspace (c : ascii) : bool :=
  let n := nat_of_ascii c in
  ((9 <=? n) && (n <=? 13) || (28 <=? n) && (n <=? 32)
   || (n =? 133) || (n =? 160))%nat.

Fixpoint lstrip (s : string) : string :=
  match s with
  | String c r => if isspace c then lstrip r else s
  | EmptyString => EmptyString
  end.

Fixpoint rstrip (s : string) : string :=
  match s with
  | String c r =>
      match rstrip r with
      | EmptyString => if isspace c then EmptyString else String c EmptyString
      | r' => String c r'
      end
  | EmptyString => EmptyString
  end.

(** [s.strip()] *)
Definition strip (s : string) : string := rstrip (lstrip s).

(** [s.split(sep)] with a one-character separator: never the empty list,
    [''.split(',') = ['']]. *)
Fixpoint split (sep : ascii) (s : string) : list string :=
  match s with
  | EmptyString => [EmptyString]
  | String c r =>
      if Ascii.eqb c sep then EmptyString :: split sep r
      else match split sep r with
           | f :: fs => String c f :: fs
           | [] => [String c EmptyString]
           end
  end.

(** The number of occurrences of a character, [s.count(c)]. *)
Fixpoint count (c : ascii) (s : string) : nat :=
  match s with
  | EmptyString => 0
  | String d r => (if Ascii.eqb d c then 1 else 0) + count c r
  end.

End PyStr.

(** ** Python lists *)
Module PyList.

(** [xs[start:]]: a negative start counts from the end and is clamped at
    the front, a start past the end gives the empty list. *)
Definition slice_from {A : Type} (start : Z) (xs : list A) : list A :=
  let len := Z.of_nat (List.length xs) in
  let lo := if (start <? 0)%Z then Z.max (len + start) 0 else Z.min start len in
  skipn (Z.to_nat lo) xs.

(** truthiness of a list: [if xs] *)
Definition truthy {A : Type} (xs : list A) : bool :=
  match xs with [] => false | _ :: _ => true end.

End PyList.

(** ** Python floats: IEEE 754 binary64

    Values are the standard library's [spec_float] at precision 53 and
    maximal exponent 1024; subtraction is its [SFsub]. *)
Module PyFloat.

Definition float : Type := spec_float.
Definition prec : Z := 53.
Definition emax : Z := 1024.

(** [x - y] *)
Definition fsub (x y : float) : float := SFsub prec emax x y.

(** [x <= y] *)
Definition fleb (x y : float) : bool := SFleb x y.

Definition is_finite (x : float) : bool :=
  match x with
  | S754_zero _ | S754_finite _ _ _ => true
  | _ => false
  end.

(** A value a binary64 can hold: the mantissa is canonical for its
    exponent. *)
Definition valid (x : float) : bool := valid_binary prec emax x.

(** *** [float(s)] *)

Definition digit_val (c : ascii) : option Z :=
  let n := nat_of_ascii c in
  if ((48 <=? n) && (n <=? 57))%nat then Some (Z.of_nat n - 48)%Z else None.

(** Lower-case an ASCII letter ([inf] and [nan] are matched without
    regard to case). *)
Definition lower (c : ascii) : ascii :=
  let n := nat_of_ascii c in
  if ((65 <=? n) && (n <=? 90))%nat then ascii_of_nat (n + 32) else c.

Fixpoint lower_string (s : string) : string :=
  match s with
  | EmptyString => EmptyString
  | String c r => String (lower c) (lower_string r)
  end.

(** The rest of a digit part, [(["_"] digit)*], after its first digit:
    the accumulated value, the number of digits read and what is left. *)
Fixpoint digit_tail (s : string) (acc cnt : Z) : Z * Z * string :=
  match s with
  | String c r =>
      match digit_val c with
      | Some d => digit_tail r (10 * acc + d)%Z (cnt + 1)%Z
      | None =>
          if Ascii.eqb c "_" then
            match r with
            | String c' r' =>
                match digit_val c' with
                | Some d => digit_tail r' (10 * acc + d)%Z (cnt + 1)%Z
                | None => (acc, cnt, s)
                end
            | EmptyString => (acc, cnt, s)
            end
          else (acc, cnt, s)
      end
  | EmptyString => (acc, cnt, s)
  end.

(** [digitpart ::= digit (["_"] digit)*] *)
Definition digitpart (s : string) (acc cnt : Z) : option (Z * Z * string) :=
  match s with
  | String c r =>
      match digit_val c with
      | Some d => Some (digit_tail r (10 * acc + d)%Z (cnt + 1)%Z)
      | None => None
      end
  | EmptyString => None
  end.

(** [number ::= [digitpart] "." digitpart | digitpart ["."]]: the digits
    as an integer, the number of digits after the point, the rest. *)
Definition number (s : string) : option (Z * Z * string) :=
  match digitpart s 0 0 with
  | Some (ip, _, rest) =>
      match rest with
      | String "." rest' =>
          match digitpart rest' ip 0 with
          | Some r => Some r
          | None => Some (ip, 0%Z, rest')
          end
      | _ => Some (ip, 0%Z, rest)
      end
  | None =>
      match s with
      | String "." rest' => digitpart rest' 0 0
      | _ => None
      end
  end.

Definition sign_of (s : string) : bool * string :=
  match s with
  | String "-" r => (true, r)
  | String "+" r => (false, r)
  | _ => (false, s)
  end.

(** [exponent ::= ("e" | "E") [sign] digitpart], or nothing. [None] when
    the text is neither. *)
Definition exponent (s : string) : option Z :=
  match s with
  | EmptyString => Some 0%Z
  | String c r =>
      if Ascii.eqb (lower c) "e" then
        let '(neg, r') := sign_of r in
        match digitpart r' 0 0 with
        | Some (v, _, EmptyString) => Some (if neg then (- v)%Z else v)
        | _ => None
        end
      else None
  end.

(** The binary64 nearest to [n / d] (ties to even), for [0 < n], [0 < d]:
    a quotient of at least 55 bits and the position of the remainder are
    handed to the library's rounding. *)
Definition of_ratio (neg : bool) (n d : Z) : float :=
  let k := Z.max 0 (56 + Zdigits2 d - Zdigits2 n) in
  let '(q, r) := Z.div_eucl (n * 2 ^ k) d in
  binary_round_aux prec emax neg q (- k) (new_location d r).

(** The binary64 nearest to [m * 10 ^ e]. *)
Definition of_decimal (neg : bool) (m e : Z) : float :=
  if (m =? 0)%Z then S754_zero neg
  else if (0 <=? e)%Z then of_ratio neg (m * 10 ^ e) 1
  else of_ratio neg m (10 ^ (- e)).

(** The white space [float] skips at both ends of its argument. It is not
    that of [str.strip]: [float] turns the spaces above ASCII (133 and 160
    below 256) into blanks and then skips what C's [isspace] accepts, 9 to
    13 and 32; the separators 28 to 31 stay and make the conversion
    fail. *)
Definition float_space (c : ascii) : bool :=
  let n := nat_of_ascii c in
  ((9 <=? n) && (n <=? 13) || (n =? 32) || (n =? 133) || (n =? 160))%nat.

Fixpoint float_lstrip (s : string) : string :=
  match s with
  | String c r => if float_space c then float_lstrip r else s
  | EmptyString => EmptyString
  end.

Fixpoint float_rstrip (s : string) : string :=
  match s with
  | String c r =>
      match float_rstrip r with
      | EmptyString =>
          if float_space c then EmptyString else String c EmptyString
      | r' => String c r'
      end
  | EmptyString => EmptyString
  end.

Definition float_strip (s : string) : string := float_rstrip (float_lstrip s).

(** [float(s)]; [None] stands for [ValueError]. *)
Definition float_of_str (s : string) : option float :=
  let '(neg, body) := sign_of (float_strip s) in
  let low := lower_string body in
  if String.eqb low "inf" || String.eqb low "infinity" then
    Some (S754_infinity neg)
  else if String.eqb low "nan" then Some S754_nan
  else
    match number body with
    | Some (m, frac, rest) =>
        match exponent rest with
        | Some e => Some (of_decimal neg m (e - frac))
        | None => None
        end
    | None => None
    end.

(** *** ['%.2f' % x] *)

(** [a / b] rounded to the nearest integer, ties to even ([0 < b]). *)
Definition rne_div (a b : Z) : Z :=
  let q := (a / b)%Z in
  match (2 * (a mod b) ?= b)%Z with
  | Lt => q
  | Gt => (q + 1)%Z
  | Eq => if Z.even q then q else (q + 1)%Z
  end.

(** The magnitude [m * 2 ^ e] in hundredths, correctly rounded. *)
Definition centis_abs (m : positive) (e : Z) : Z :=
  match e with
  | Zneg k => rne_div (100 * Zpos m) (2 ^ Zpos k)
  | _ => (100 * Zpos m * 2 ^ e)%Z
  end.

Definition digit_char (d : Z) : ascii := ascii_of_nat (48 + Z.to_nat d).

(** The decimal digits of [n], least significant first onto [acc]. *)
Fixpoint dec_digits (fuel : nat) (n : Z) (acc : string) : string :=
  match fuel with
  | O => acc
  | S fuel' =>
      let acc' := String (digit_char (n mod 10)) acc in
      if (n <? 10)%Z then acc' else dec_digits fuel' (n / 10) acc'
  end.

(** [str(n)] for [0 <= n]; a number has no more decimal digits than bits. *)
Definition dec_string (n : Z) : string :=
  dec_digits (S (Z.to_nat (Z.log2 n))) n "".

(** [c] hundredths written with two decimals, [neg] the sign bit of the
    float: [-0.001] prints as ["-0.00"]. *)
Definition fixed2 (neg : bool) (c : Z) : string :=
  (if neg then "-" else "")
    ++ dec_string (c / 100) ++ "."
    ++ String (digit_char (c mod 100 / 10))
         (String (digit_char (c mod 10)) EmptyString).

Definition format_2f (x : float) : string :=
  match x with
  | S754_nan => "nan"
  | S754_infinity neg => if neg then "-inf" else "inf"
  | S754_zero neg => fixed2 neg 0
  | S754_finite neg m e => fixed2 neg (centis_abs m e)
  end.

(** *** Reading a ['%.2f'] text back as a number *)

(** What a ['%.2f'] text denotes: hundredths, or an infinity. *)
Inductive tval : Type :=
| TNegInf
| TNum (centis : Z)
| TPosInf.

Definition tval_le (a b : tval) : Prop :=
  match a, b with
  | TNegInf, _ => True
  | _, TPosInf => True
  | TNum x, TNum y => (x <= y)%Z
  | _, _ => False
  end.

(** The leading decimal digits of a text and what follows them. *)
Fixpoint take_digits (s : string) (acc : Z) : Z * string :=
  match s with
  | String c r =>
      match digit_val c with
      | Some d => take_digits r (10 * acc + d)%Z
      | None => (acc, s)
      end
  | EmptyString => (acc, s)
  end.

Definition tval_of_str (s : string) : option tval :=
  let '(neg, body) :=
    match s with String "-" r => (true, r) | _ => (false, s) end in
  if String.eqb body "inf" then Some (if neg then TNegInf else TPosInf)
  else
    match body with
    | String c _ =>
        match digit_val c with
        | None => None
        | Some _ =>
            match take_digits body 0 with
            | (ip, String "." (String c1 (String c2 EmptyString))) =>
                match digit_val c1, digit_val c2 with
                | Some d1, Some d2 =>
                    let v := (100 * ip + 10 * d1 + d2)%Z in
                    Some (TNum (if neg then (- v)%Z else v))
                | _, _ => None
                end
            | _ => None
            end
        end
    | EmptyString => None
    end.

(** *** Values and rounding, in units of [2 ^ -1074]

    Every finite binary64 is an integer number of units of [2 ^ -1074],
    the smallest positive one; the infinities sit at [2 ^ 2098] units, just
    above the largest finite value. *)
Definition inf_units : Z := 2 ^ 2098.

Definition units (x : float) : Z :=
  match x with
  | S754_zero _ => 0
  | S754_finite neg m e => cond_Zopp neg (Zpos m * 2 ^ (e + 1074))
  | S754_infinity neg => cond_Zopp neg inf_units
  | S754_nan => 0
  end.

(** A float whose mantissa and exponent are in the binary64 range. *)
Definition fits (x : float) : bool :=
  match x with
  | S754_finite _ m e =>
      (-1074 <=? e)%Z && (e <=? 971)%Z && (Zpos (digits2_pos m) <=? 53)%Z
  | S754_nan => false
  | _ => true
  end.

(** A function on magnitudes extended to signed values. *)
Definition odd_ext (f : Z -> Z) (u : Z) : Z :=
  if (u <? 0)%Z then (- f (- u))%Z else f u.

(** A magnitude rounded to 53 significant bits, ties to even. *)
Definition round53 (u : Z) : Z :=
  let d := Zdigits2 u in
  if (d <=? 53)%Z then u
  else (rne_div u (2 ^ (d - 53)) * 2 ^ (d - 53))%Z.

(** The same, and to the infinity when that reaches [2 ^ 2098] units. *)
Definition round_mag (u : Z) : Z := Z.min (round53 u) inf_units.

(** A magnitude in units as hundredths, ties to even. *)
Definition centis_mag (u : Z) : Z := rne_div (100 * u) (2 ^ 1074).

(** What ['%.2f' % x] denotes. *)
Definition tval_of_float (x : float) : option tval :=
  match x with
  | S754_nan => None
  | S754_infinity neg => Some (if neg then TNegInf else TPosInf)
  | S754_zero _ => Some (TNum 0)
  | S754_finite neg m e => Some (TNum (cond_Zopp neg (centis_abs m e)))
  end.

End PyFloat.

(** ** Values held by the script's lists

    Python lists are untyped; the script puts text in [timePoints] and
    floats in [tempValues] and [co2Values]. *)
Inductive pyval : Type :=
| PyStr (s : string)
| PyFloat (x : PyFloat.float).

(** ** The world the script acts on

    The three module-level lists, the content of the file [FILENAME] as the
    rows given to [csv.writer.writerow] ([None]: the file does not exist),
    and what [print] has written. *)
Record world : Type := mkWorld {
  timePoints : list pyval;
  tempValues : list pyval;
  co2Values : list pyval;
  csv_file : option (list (list string));
  stdout : list string
}.

(** The state of the script when the session starts: [timePoints = []],
    [tempValues = []], [co2Values = []], no log file written. *)
Definition initial_world : world :=
  {| timePoints := []; tempValues := []; co2Values := [];
     csv_file := None; stdout := [] |}.

(** ** Statements: state and exceptions

    A statement runs in a world and ends normally with a value or by
    raising; what it changed before raising stays changed. *)
Inductive exn : Type := ValueError | SystemExit.

Inductive result (A : Type) : Type :=
| Ok (a : A)
| Raise (e : exn).
Arguments Ok {A} a.
Arguments Raise {A} e.

Definition M (A : Type) : Type := world -> result A * world.

Definition ret {A : Type} (a : A) : M A := fun w => (Ok a, w).

Definition bind {A B : Type} (m : M A) (k : A -> M B) : M B :=
  fun w =>
    match m w with
    | (Ok a, w') => k a w'
    | (Raise e, w') => (Raise e, w')
    end.

Definition raise {A : Type} (e : exn) : M A := fun w => (Raise e, w).

(** [try: body except ValueError: handler] *)
Definition try_except_ValueError {A : Type} (body handler : M A) : M A :=
  fun w =>
    match body w with
    | (Raise ValueError, w') => handler w'
    | r => r
    end.

Declare Scope py_scope.
Delimit Scope py_scope with py.
Notation "x <- m ;; k" := (bind m (fun x => k))
  (at level 61, m at next level, right associativity) : py_scope.
Notation "m ;; k" := (bind m (fun _ => k))
  (at level 61, right associativity) : py_scope.
Local Open Scope py_scope.

(** The five ways the script changes the world. *)
Definition push_time (v : pyval) (w : world) : world :=
  {| timePoints := timePoints w ++ [v]; tempValues := tempValues w;
     co2Values := co2Values w; csv_file := csv_file w; stdout := stdout w |}.

Definition push_temp (v : pyval) (w : world) : world :=
  {| timePoints := timePoints w; tempValues := tempValues w ++ [v];
     co2Values := co2Values w; csv_file := csv_file w; stdout := stdout w |}.

Definition push_co2 (v : pyval) (w : world) : world :=
  {| timePoints := timePoints w; tempValues := tempValues w;
     co2Values := co2Values w ++ [v]; csv_file := csv_file w;
     stdout := stdout w |}.

(** The rows of the log file; a file that does not exist has none. *)
Definition log_rows (w : world) : list (list string) :=
  match csv_file w with Some rows => rows | None => [] end.

Definition push_row (row : list string) (w : world) : world :=
  {| timePoints := timePoints w; tempValues := tempValues w;
     co2Values := co2Values w; csv_file := Some (log_rows w ++ [row]);
     stdout := stdout w |}.

Definition push_out (s : string) (w : world) : world :=
  {| timePoints := timePoints w; tempValues := tempValues w;
     co2Values := co2Values w; csv_file := csv_file w;
     stdout := stdout w ++ [s] |}.

(** [timePoints.append(v)], [tempValues.append(v)], [co2Values.append(v)] *)
Definition timePoints_append (v : pyval) : M unit :=
  fun w => (Ok tt, push_time v w).

Definition tempValues_append (v : pyval) : M unit :=
  fun w => (Ok tt, push_temp v w).

Definition co2Values_append (v : pyval) : M unit :=
  fun w => (Ok tt, push_co2 v w).

(** [with open(FILENAME, mode='a') as file: csv.writer(file).writerow(row)]:
    the file is created when it does not exist, the row goes to its end. *)
Definition csv_append_row (row : list string) : M unit :=
  fun w => (Ok tt, push_row row w).

Definition print (s : string) : M unit :=
  fun w => (Ok tt, push_out s w).

(** [exit()] *)
Definition exit {A : Type} : M A := raise SystemExit.

(** [float(s)] as a statement *)
Definition float_ (s : string) : M PyFloat.float :=
  match PyFloat.float_of_str s with
  | Some x => ret x
  | None => raise ValueError
  end.

(** ** The script *)

Definition conversion_error : string :=
  "Data conversion error -- Exiting program".

Section Session.

(** [startTime = time.time()], assigned once before the first tick. *)
Variable startTime : PyFloat.float.

(** The fields of a line: [line.strip().split(',')], where [line] is
    [port.readline().decode('utf-8')]. *)
Definition fields (line : string) : list string :=
  PyStr.split "," (PyStr.strip line).

(** [readData(port, csvOut, debug)]. [line] is what the port delivers,
    [now] what [time.time()] returns in this call. *)
Definition readData (line : string) (now : PyFloat.float)
    (csvOut debug : bool) : M unit :=
  let data := fields line in
  if PyList.truthy data && (List.length data =? 2)%nat then
    try_except_ValueError
      (let timeVal := PyFloat.format_2f (PyFloat.fsub now startTime) in
       timePoints_append (PyStr timeVal) ;;
       x <- float_ (nth 0 data "") ;;
       tempValues_append (PyFloat x) ;;
       y <- float_ (nth 1 data "") ;;
       co2Values_append (PyFloat y) ;;
       if csvOut
       then csv_append_row [timeVal; nth 0 data ""; nth 1 data ""]
       else ret tt)
      (print conversion_error ;; exit)
  else ret tt.

(** The default values of [readData]'s keyword parameters. *)
Definition csvOut_default : bool := false.
Definition debug_default : bool := true.

(** What one redraw hands to the two [plot] calls. *)
Record frame : Type := mkFrame {
  ax1_x : list pyval; ax1_y : list pyval;
  ax2_x : list pyval; ax2_y : list pyval
}.

(** [xs[-15:]] *)
Definition last15 (xs : list pyval) : list pyval := PyList.slice_from (-15) xs.

(** [xs[-n:]]: the slice of lines 80 and 89 with its 15 as a parameter. *)
Definition window (n : nat) (xs : list pyval) : list pyval :=
  PyList.slice_from (- Z.of_nat n) xs.

(** [update_plot(frame)]: [readData(port)], then the two axes are cleared
    and redrawn from the last 15 points. The remaining calls of the
    function set limits, labels and target lines and write the text box
    (the clock once more and the last two values, each with ['%.2f']);
    they draw, and leave the lists, the file and the output alone. *)
Definition update_plot (line : string) (now : PyFloat.float) : M frame :=
  readData line now csvOut_default debug_default ;;
  fun w =>
    (Ok {| ax1_x := last15 (timePoints w); ax1_y := last15 (tempValues w);
           ax2_x := last15 (timePoints w); ax2_y := last15 (co2Values w) |},
     w).

(** One timer tick: the line the port delivers and the clock. *)
Record tick : Type := mkTick { line : string; now : PyFloat.float }.

(** The acquisition step run once per tick with a given [csvOut]. *)
Fixpoint acquire (csvOut : bool) (ticks : list tick) : M unit :=
  match ticks with
  | [] => ret tt
  | tk :: rest =>
      readData (line tk) (now tk) csvOut debug_default ;;
      acquire csvOut rest
  end.

(** [FuncAnimation(plt.gcf(), update_plot, interval=1000)] until the
    window is closed: [update_plot] once per tick, in order. *)
Fixpoint animate (ticks : list tick) : M unit :=
  match ticks with
  | [] => ret tt
  | tk :: rest => update_plot (line tk) (now tk) ;; animate rest
  end.

(** ** Vocabulary of the properties *)

(** A line is accepted when it has two fields and both convert. *)
Definition accepted (l : string) : bool :=
  match fields l with
  | [a; b] =>
      match PyFloat.float_of_str a, PyFloat.float_of_str b with
      | Some _, Some _ => true
      | _, _ => false
      end
  | _ => false
  end.

(** A line is fatal when it has two fields and one does not convert. *)
Definition fatal (l : string) : bool :=
  (List.length (fields l) =? 2)%nat && negb (accepted l).

(** The elapsed time the step computes at clock [t]. *)
Definition timeVal_at (t : PyFloat.float) : string :=
  PyFloat.format_2f (PyFloat.fsub t startTime).

Definition equal_lengths (w : world) : Prop :=
  List.length (timePoints w) = List.length (tempValues w) /\
  List.length (tempValues w) = List.length (co2Values w).

(** The clock reads of a session: [time.time()] is called by the ticks
    whose line has two fields. *)
Definition reads_clock (tk : tick) : bool :=
  (List.length (fields (line tk)) =? 2)%nat.

Definition clock_reads (ticks : list tick) : list PyFloat.float :=
  map now (filter reads_clock ticks).

(** The number a stored elapsed time stands for. *)
Definition elapsed_value (v : pyval) : option PyFloat.tval :=
  match v with
  | PyStr s => PyFloat.tval_of_str s
  | PyFloat _ => None
  end.

(** The value an elapsed-time text stands for, [TNum 0] when it has none. *)
Definition value_or_zero (v : pyval) : PyFloat.tval :=
  match elapsed_value v with Some x => x | None => PyFloat.TNum 0 end.

(** The samples of the store, index by index. *)
Definition samples (w : world) : list (pyval * pyval * pyval) :=
  combine (combine (timePoints w) (tempValues w)) (co2Values w).

(** The row the logger writes for an accepted tick: the elapsed time and
    the two fields as they came off the wire. *)
Definition row_of (tk : tick) : list string :=
  [timeVal_at (now tk); nth 0 (fields (line tk)) ""; nth 1 (fields (line tk)) ""].

Definition rows_of (ticks : list tick) : list (list string) :=
  map row_of (filter (fun tk => accepted (line tk)) ticks).

(** A row records a sample: same elapsed-time text, and the two value
    fields are texts that convert to the stored floats. *)
Definition logs (row : list string) (s : pyval * pyval * pyval) : Prop :=
  match row, s with
  | [tv; a; b], (PyStr tv', PyFloat x, PyFloat y) =>
      tv = tv' /\ PyFloat.float_of_str a = Some x /\
      PyFloat.float_of_str b = Some y
  | _, _ => False
  end.

End Session.

(** [openPort()]: the port opens or the program prints and exits. *)
Definition openPort (port_ok : bool) : M unit :=
  if port_ok then print "Serial port is open"
  else print "Serial port is not open -- Exiting program" ;; exit.

(** The program up to the end of the live session: the port is opened,
    [startTime] is read from the clock, the animation runs. *)
Definition main (port_ok : bool) (t0 : PyFloat.float) (ticks : list tick)
  : M unit :=
  openPort port_ok ;; animate t0 ticks.

(** ** The rest of the script *)

(** *** The text box of [update_plot] *)

(** What the text-box lines do: nothing while a value list is empty, the
    text otherwise; ['%.2f' % v] raises [TypeError] on a [str]. *)
Inductive text_box : Type :=
| NoText
| Text (s : string)
| TextTypeError.

(** ['%.2f' % v] *)
Definition percent_2f (v : pyval) : option string :=
  match v with
  | PyFloat x => Some (PyFloat.format_2f x)
  | PyStr _ => None
  end.

Definition newline : string := String (ascii_of_nat 10) EmptyString.

(** [f'Time: {current_time} s\nTemp: {current_temp} C\nCO2: {current_co2} %'] *)
Definition textstr (current_time current_temp current_co2 : string) : string :=
  "Time: " ++ current_time ++ " s" ++ newline
    ++ "Temp: " ++ current_temp ++ " C" ++ newline
    ++ "CO2: " ++ current_co2 ++ " %".

(** [xs[-1]] of a list that is not empty. *)
Definition item_last (xs : list pyval) : pyval := List.last xs (PyStr "").

(** The text box drawn at the end of [update_plot]; [now] is the clock
    read of [current_time]. *)
Definition text_box_of (startTime now : PyFloat.float) (w : world) : text_box :=
  if PyList.truthy (tempValues w) && PyList.truthy (co2Values w) then
    let current_time := PyFloat.format_2f (PyFloat.fsub now startTime) in
    match percent_2f (item_last (tempValues w)) with
    | None => TextTypeError
    | Some current_temp =>
        match percent_2f (item_last (co2Values w)) with
        | None => TextTypeError
        | Some current_co2 =>
            Text (textstr current_time current_temp current_co2)
        end
    end
  else NoText.

(** *** The log file name *)

(** The fields of [time.localtime()] that the name is made of. *)
Record struct_time : Type := mkTime {
  tm_year : Z; tm_mon : Z; tm_mday : Z;
  tm_hour : Z; tm_min : Z; tm_sec : Z
}.

(** A [%m], [%d], [%y], [%H], [%M] or [%S] field: two digits. *)
Definition two_digits (n : Z) : string :=
  String (PyFloat.digit_char (n / 10))
    (String (PyFloat.digit_char (n mod 10)) EmptyString).

(** [FILENAME = time.strftime("%m%d%y_%H%M%S") + '.csv'] *)
Definition FILENAME (t : struct_time) : string :=
  (two_digits (tm_mon t) ++ two_digits (tm_mday t)
     ++ two_digits (tm_year t mod 100) ++ "_"
     ++ two_digits (tm_hour t) ++ two_digits (tm_min t)
     ++ two_digits (tm_sec t)) ++ ".csv".

(** The ranges of the fields of a [struct_time]. *)
Definition time_ok (t : struct_time) : Prop :=
  (1 <= tm_mon t <= 12 /\ 1 <= tm_mday t <= 31 /\
   0 <= tm_hour t <= 23 /\ 0 <= tm_min t <= 59 /\ 0 <= tm_sec t <= 61)%Z.

(** *** Vocabulary of the further properties *)

(** [sep.join(xs)] with a one-character separator. *)
Fixpoint join (sep : ascii) (xs : list string) : string :=
  match xs with
  | [] => EmptyString
  | [x] => x
  | x :: rest => x ++ String sep (join sep rest)
  end.

(** The sample an accepted tick stores, none for any other tick. *)
Definition sample_of (startTime : PyFloat.float) (tk : tick)
  : list (pyval * pyval * pyval) :=
  match fields (line tk) with
  | [a; b] =>
      match PyFloat.float_of_str a, PyFloat.float_of_str b with
      | Some x, Some y =>
          [(PyStr (timeVal_at startTime (now tk)), PyFloat x, PyFloat y)]
      | _, _ => []
      end
  | _ => []
  end.

Definition samples_of (startTime : PyFloat.float) (ticks : list tick)
  : list (pyval * pyval * pyval) :=
  flat_map (sample_of startTime) ticks.

(** The ticks before the first fatal line. *)
Fixpoint before_fatal (ticks : list tick) : list tick :=
  match ticks with
  | [] => []
  | tk :: rest => if fatal (line tk) then [] else tk :: before_fatal rest
  end.

Definition has_fatal (ticks : list tick) : bool :=
  existsb (fun tk => fatal (line tk)) ticks.

Definition is_text (v : pyval) : bool :=
  match v with PyStr _ => true | PyFloat _ => false end.

Definition is_number (v : pyval) : bool :=
  match v with PyFloat _ => true | PyStr _ => false end.

(** Texts in [timePoints], floats in the two value lists. *)
Definition well_typed (w : world) : Prop :=
  Forall (fun v => is_text v = true) (timePoints w) /\
  Forall (fun v => is_number v = true) (tempValues w) /\
  Forall (fun v => is_number v = true) (co2Values w).

(** [w'] is [w] with elements added at the end of its lists, rows at the
    end of the file and lines at the end of the output. *)
Definition grows_from (w w' : world) : Prop :=
  (exists xs, timePoints w' = timePoints w ++ xs) /\
  (exists xs, tempValues w' = tempValues w ++ xs) /\
  (exists xs, co2Values w' = co2Values w ++ xs) /\
  (exists rows, log_rows w' = log_rows w ++ rows) /\
  (exists out, stdout w' = stdout w ++ out).

(** ** Sample clock values for the examples *)

(** The line ["1.5<FS>,2.5"], with the file separator (code point 28)
    at the end of its first field. *)
Definition line_with_separator : string :=
  String "1" (String "." (String "5" (String (ascii_of_nat 28) ",2.5"))).

(** [1.0], [2.5] and [3.5] as binary64. *)
Definition t_start : PyFloat.float := S754_finite false 4503599627370496 (-52).
Definition t_later : PyFloat.float := S754_finite false 5629499534213120 (-51).
Definition t_last : PyFloat.float := S754_finite false 7881299347898368 (-51).

(** * Properties *)

(** ** Text: [split] and [strip] *)
Module PyStrFacts.
Import PyStr.

Lemma split_truthy (sep : ascii) (s : string) :
  PyList.truthy (split sep s) = true.
Proof.
  induction s as [|c r IH]; simpl; [reflexivity|].
  destruct (Ascii.eqb c sep); [reflexivity|].
  destruct (split sep r); reflexivity.
Qed.

(** One more field than separators. *)
Lemma split_length (sep : ascii) (s : string) :
  List.length (split sep s) = S (count sep s).
Proof.
  induction s as [|c r IH]; simpl; [reflexivity|].
  destruct (Ascii.eqb c sep); simpl.
  - now rewrite IH.
  - destruct (split sep r); simpl in *; [discriminate | exact IH].
Qed.

Lemma count_lstrip (c : ascii) (s : string) :
  isspace c = false -> count c (lstrip s) = count c s.
Proof.
  intros Hc. induction s as [|d r IH]; simpl; [reflexivity|].
  destruct (isspace d) eqn:Hd; simpl; [|reflexivity].
  rewrite IH. destruct (Ascii.eqb d c) eqn:E; [|reflexivity].
  apply Ascii.eqb_eq in E. congruence.
Qed.

Lemma count_rstrip (c : ascii) (s : string) :
  isspace c = false -> count c (rstrip s) = count c s.
Proof.
  intros Hc. induction s as [|d r IH]; simpl; [reflexivity|].
  destruct (rstrip r) eqn:Er.
  - simpl in IH. rewrite <- IH.
    destruct (isspace d) eqn:Hd; simpl.
    + destruct (Ascii.eqb d c) eqn:E; [|reflexivity].
      apply Ascii.eqb_eq in E. congruence.
    + now rewrite Nat.add_0_r.
  - simpl in *. now rewrite IH.
Qed.

(** Stripping removes white space only, so it keeps every comma. *)
Lemma count_strip (c : ascii) (s : string) :
  isspace c = false -> count c (strip s) = count c s.
Proof.
  intros Hc. unfold strip.
  now rewrite count_rstrip, count_lstrip.
Qed.

End PyStrFacts.

(** ** Floats: rounding, subtraction, comparison and formatting *)
Module PyFloatFacts.
Import PyFloat.
Local Open Scope Z_scope.

(** The model on values Python prints: [float("0.1")] is
    [0x1.999999999999ap-4], [float("1e400")] is [inf], and ['%.2f'] rounds
    the binary value, ties to even. *)
Example float_of_str_tenth :
  float_of_str "0.1" = Some (S754_finite false 7205759403792794 (-56)).
Proof. vm_compute. reflexivity. Qed.

Example float_of_str_forms :
  float_of_str " 1_0.5e-1 " = Some (S754_finite false 4728779608739021 (-52)) /\
  float_of_str "1e400" = Some (S754_infinity false) /\
  float_of_str "-Infinity" = Some (S754_infinity true) /\
  float_of_str "nAn" = Some S754_nan /\
  float_of_str "5." = float_of_str "5" /\
  float_of_str "." = None /\
  float_of_str "1__0" = None /\
  float_of_str "bad" = None.
Proof. vm_compute. repeat split; reflexivity. Qed.

(** [float] skips blanks, tabs and line ends around a number, but not the
    separators 28 to 31, which [str.strip] removes. *)
Example float_of_str_white_space :
  float_of_str (String (ascii_of_nat 9) "1.5 ")
    = Some (S754_finite false 6755399441055744 (-52)) /\
  float_of_str (String (ascii_of_nat 160) "1.5")
    = Some (S754_finite false 6755399441055744 (-52)) /\
  float_of_str (String (ascii_of_nat 28) "1.5") = None /\
  float_of_str (String "1" (String "." (String "5"
                  (String (ascii_of_nat 31) EmptyString)))) = None /\
  PyStr.strip (String (ascii_of_nat 28) "1.5") = "1.5"%string.
Proof. vm_compute. repeat split; reflexivity. Qed.

Example format_2f_rounding :
  option_map format_2f (float_of_str "0.125") = Some "0.12"%string /\
  option_map format_2f (float_of_str "0.375") = Some "0.38"%string /\
  option_map format_2f (float_of_str "2.675") = Some "2.67"%string /\
  option_map format_2f (float_of_str "-0.001") = Some "-0.00"%string /\
  option_map format_2f (float_of_str "1e400") = Some "inf"%string.
Proof. vm_compute. repeat split; reflexivity. Qed.

(** ** Rounding a quotient to the nearest integer *)

Lemma rne_div_bounds (a b : Z) : a / b <= rne_div a b <= a / b + 1.
Proof.
  unfold rne_div.
  destruct (2 * (a mod b) ?= b); [destruct (Z.even (a / b))| |]; lia.
Qed.

Lemma rne_div_exact (c b : Z) : 0 < b -> rne_div (c * b) b = c.
Proof.
  intros Hb. unfold rne_div.
  rewrite Z.div_mul by lia. rewrite Z.mod_mul by lia.
  destruct (Z.compare_spec (2 * 0) b); lia || reflexivity.
Qed.

Lemma rne_div_mono (a a' b : Z) :
  0 < b -> a <= a' -> rne_div a b <= rne_div a' b.
Proof.
  intros Hb Ha.
  pose proof (Z.div_le_mono a a' b Hb Ha) as Hq.
  destruct (Z.eq_dec (a / b) (a' / b)) as [E|E].
  - assert (Hr : a mod b <= a' mod b).
    { rewrite !Z.mod_eq by lia. rewrite E. lia. }
    unfold rne_div. rewrite E.
    destruct (Z.compare_spec (2 * (a mod b)) b),
             (Z.compare_spec (2 * (a' mod b)) b);
      try lia; destruct (Z.even (a' / b)); lia.
  - pose proof (rne_div_bounds a b). pose proof (rne_div_bounds a' b). lia.
Qed.

Lemma rne_div_scale (a b c : Z) :
  0 < b -> 0 < c -> rne_div (a * c) (b * c) = rne_div a b.
Proof.
  intros Hb Hc. unfold rne_div.
  rewrite Z.div_mul_cancel_r by lia. rewrite Z.mul_mod_distr_r by lia.
  destruct (Z.compare_spec (2 * (a mod b * c)) (b * c)),
           (Z.compare_spec (2 * (a mod b)) b); try reflexivity; nia.
Qed.

Lemma rne_div_le (a b c : Z) : 0 < b -> a <= c * b -> rne_div a b <= c.
Proof.
  intros Hb H. rewrite <- (rne_div_exact c b Hb). now apply rne_div_mono.
Qed.

Lemma rne_div_ge (a b c : Z) : 0 < b -> c * b <= a -> c <= rne_div a b.
Proof.
  intros Hb H. rewrite <- (rne_div_exact c b Hb). now apply rne_div_mono.
Qed.

Lemma rne_div_one (a : Z) : rne_div a 1 = a.
Proof. rewrite <- (Z.mul_1_r a) at 1. now apply rne_div_exact. Qed.

(** ** The number of bits of an integer *)

Lemma digits2_pos_bounds (p : positive) :
  2 ^ (Zpos (digits2_pos p) - 1) <= Zpos p < 2 ^ Zpos (digits2_pos p).
Proof.
  induction p as [p IH|p IH|]; cbn [digits2_pos].
  - rewrite Pos2Z.inj_succ.
    replace (Z.succ (Zpos (digits2_pos p)) - 1) with (Z.succ (Zpos (digits2_pos p) - 1)) by lia.
    rewrite !Z.pow_succ_r by lia. lia.
  - rewrite Pos2Z.inj_succ.
    replace (Z.succ (Zpos (digits2_pos p)) - 1) with (Z.succ (Zpos (digits2_pos p) - 1)) by lia.
    rewrite !Z.pow_succ_r by lia. lia.
  - cbn. lia.
Qed.

Lemma Zdigits2_bounds (u : Z) :
  0 < u -> 2 ^ (Zdigits2 u - 1) <= u < 2 ^ Zdigits2 u.
Proof.
  destruct u as [|p|p]; try lia. intros _. apply digits2_pos_bounds.
Qed.

Lemma Zdigits2_pos (u : Z) : 0 < u -> 0 < Zdigits2 u.
Proof. destruct u; simpl; lia. Qed.

Lemma Zdigits2_unique (u k : Z) :
  2 ^ (k - 1) <= u < 2 ^ k -> 0 < u -> Zdigits2 u = k.
Proof.
  intros [Hl Hu] Hpos.
  pose proof (Zdigits2_bounds u Hpos) as [Hl' Hu'].
  pose proof (Zdigits2_pos u Hpos) as Hd.
  assert (Hk : 0 < k).
  { destruct (Z.ltb_spec 0 k); [assumption|].
    destruct (Z.eq_dec k 0) as [->|Hk0]; [cbn in Hu; lia|].
    rewrite (Z.pow_neg_r 2 k) in Hu by lia. lia. }
  destruct (Z.lt_trichotomy (Zdigits2 u) k) as [H|[H|H]]; [|assumption|].
  - assert (2 ^ Zdigits2 u <= 2 ^ (k - 1)) by (apply Z.pow_le_mono_r; lia). lia.
  - assert (2 ^ k <= 2 ^ (Zdigits2 u - 1)) by (apply Z.pow_le_mono_r; lia). lia.
Qed.

Lemma Zdigits2_shift (m j : Z) :
  0 < m -> 0 <= j -> Zdigits2 (m * 2 ^ j) = Zdigits2 m + j.
Proof.
  intros Hm Hj. pose proof (Zdigits2_bounds m Hm) as [Hl Hu].
  pose proof (Zdigits2_pos m Hm).
  assert (0 < 2 ^ j) by (apply Z.pow_pos_nonneg; lia).
  apply Zdigits2_unique; [|nia].
  replace (Zdigits2 m + j - 1) with ((Zdigits2 m - 1) + j) by lia.
  rewrite !Z.pow_add_r by lia. nia.
Qed.

Lemma Zdigits2_mono (u v : Z) : 0 < u -> u <= v -> Zdigits2 u <= Zdigits2 v.
Proof.
  intros Hu Huv.
  pose proof (Zdigits2_bounds u Hu) as [Hl _].
  pose proof (Zdigits2_bounds v ltac:(lia)) as [_ Hh].
  destruct (Z.le_gt_cases (Zdigits2 u) (Zdigits2 v)) as [H|H]; [assumption|].
  assert (2 ^ Zdigits2 v <= 2 ^ (Zdigits2 u - 1)).
  { apply Z.pow_le_mono_r; lia. }
  lia.
Qed.

Lemma pow2_pos (k : Z) : 0 <= k -> 0 < 2 ^ k.
Proof. intros. apply Z.pow_pos_nonneg; lia. Qed.

(** ** Rounding to 53 bits *)

Lemma round53_small (u : Z) : Zdigits2 u <= 53 -> round53 u = u.
Proof.
  intros H. unfold round53.
  destruct (Z.leb_spec (Zdigits2 u) 53); [reflexivity|lia].
Qed.

Lemma round53_large (u : Z) :
  53 < Zdigits2 u ->
  round53 u = rne_div u (2 ^ (Zdigits2 u - 53)) * 2 ^ (Zdigits2 u - 53).
Proof.
  intros H. unfold round53.
  destruct (Z.leb_spec (Zdigits2 u) 53); [lia|reflexivity].
Qed.

(** The rounded value stays in the binade of the number. *)
Lemma round53_bounds (u : Z) :
  0 < u -> 2 ^ (Zdigits2 u - 1) <= round53 u <= 2 ^ Zdigits2 u.
Proof.
  intros Hu. pose proof (Zdigits2_bounds u Hu) as [Hl Hh].
  destruct (Z.le_gt_cases (Zdigits2 u) 53) as [H|H].
  - rewrite round53_small by assumption. lia.
  - rewrite round53_large by lia.
    set (k := Zdigits2 u - 53) in *.
    assert (Hk : 0 < 2 ^ k) by (apply pow2_pos; lia).
    assert (E1 : 2 ^ (Zdigits2 u - 1) = 2 ^ 52 * 2 ^ k).
    { rewrite <- Z.pow_add_r by lia. f_equal. lia. }
    assert (E2 : 2 ^ Zdigits2 u = 2 ^ 53 * 2 ^ k).
    { rewrite <- Z.pow_add_r by lia. f_equal. lia. }
    rewrite E1, E2 in *.
    pose proof (rne_div_ge u (2 ^ k) (2 ^ 52) Hk Hl).
    pose proof (rne_div_le u (2 ^ k) (2 ^ 53) Hk ltac:(lia)).
    split; apply Z.mul_le_mono_nonneg_r; lia.
Qed.

Lemma round53_zero : round53 0 = 0.
Proof. reflexivity. Qed.

Lemma round53_nonneg (u : Z) : 0 <= u -> 0 <= round53 u.
Proof.
  intros Hu. destruct (Z.eq_dec u 0) as [->|Hn]; [now rewrite round53_zero|].
  pose proof (round53_bounds u ltac:(lia)) as [H _].
  pose proof (Zdigits2_pos u ltac:(lia)).
  pose proof (pow2_pos (Zdigits2 u - 1) ltac:(lia)). lia.
Qed.

Lemma round53_mono (u v : Z) : 0 <= u -> u <= v -> round53 u <= round53 v.
Proof.
  intros Hu Huv.
  destruct (Z.eq_dec u 0) as [->|Hn].
  { rewrite round53_zero. apply round53_nonneg. lia. }
  assert (Hu' : 0 < u) by lia. assert (Hv' : 0 < v) by lia.
  pose proof (Zdigits2_mono u v Hu' Huv) as Hd.
  destruct (Z.eq_dec (Zdigits2 u) (Zdigits2 v)) as [E|E].
  - destruct (Z.le_gt_cases (Zdigits2 u) 53) as [H|H].
    + rewrite !round53_small by lia. exact Huv.
    + rewrite !round53_large by lia. rewrite <- E.
      apply Z.mul_le_mono_nonneg_r.
      * apply Z.lt_le_incl, pow2_pos. lia.
      * apply rne_div_mono; [apply pow2_pos; lia | exact Huv].
  - pose proof (round53_bounds u Hu') as [_ H1].
    pose proof (round53_bounds v Hv') as [H2 _].
    assert (2 ^ Zdigits2 u <= 2 ^ (Zdigits2 v - 1)).
    { apply Z.pow_le_mono_r; lia. }
    lia.
Qed.

Lemma round_mag_mono (u v : Z) : 0 <= u -> u <= v -> round_mag u <= round_mag v.
Proof.
  intros Hu Huv. unfold round_mag.
  apply Z.min_le_compat_r. now apply round53_mono.
Qed.

Lemma round_mag_nonneg (u : Z) : 0 <= u -> 0 <= round_mag u.
Proof.
  intros Hu. unfold round_mag. apply Z.min_glb.
  - now apply round53_nonneg.
  - apply Z.lt_le_incl, pow2_pos. lia.
Qed.

(** ** Signed extension *)

Lemma odd_ext_mono (f : Z -> Z) :
  (forall u v, 0 <= u -> u <= v -> f u <= f v) ->
  (forall u, 0 <= u -> 0 <= f u) ->
  forall u v, u <= v -> odd_ext f u <= odd_ext f v.
Proof.
  intros Hm Hp u v Huv. unfold odd_ext.
  destruct (Z.ltb_spec u 0), (Z.ltb_spec v 0); try lia.
  - pose proof (Hm (- v) (- u)). lia.
  - pose proof (Hp (- u)). pose proof (Hp v). lia.
  - now apply Hm.
Qed.

Lemma odd_ext_cond_Zopp (f : Z -> Z) (neg : bool) (u : Z) :
  0 < u -> odd_ext f (cond_Zopp neg u) = cond_Zopp neg (f u).
Proof.
  intros Hu. unfold odd_ext, cond_Zopp. destruct neg.
  - destruct (Z.ltb_spec (- u) 0); [|lia]. now rewrite Z.opp_involutive.
  - destruct (Z.ltb_spec u 0); [lia|reflexivity].
Qed.

(** ** The library's shift with rounding bits *)

Lemma iter_pos_nat {A : Type} (f : A -> A) (p : positive) (x : A) :
  iter_pos f p x = Nat.iter (Pos.to_nat p) f x.
Proof.
  revert x. induction p as [p IH|p IH|]; intros x; cbn [iter_pos].
  - rewrite !IH, Pos2Nat.inj_xI, Nat.iter_succ_r.
    replace (2 * Pos.to_nat p)%nat with (Pos.to_nat p + Pos.to_nat p)%nat by lia.
    now rewrite Nat.iter_add.
  - rewrite !IH, Pos2Nat.inj_xO.
    replace (2 * Pos.to_nat p)%nat with (Pos.to_nat p + Pos.to_nat p)%nat by lia.
    now rewrite Nat.iter_add.
  - reflexivity.
Qed.

Lemma shr_1_nonneg (m : Z) (r s : bool) :
  0 <= m ->
  shr_1 (Build_shr_record m r s) = Build_shr_record (m / 2) (Z.odd m) (r || s).
Proof.
  intros Hm. rewrite <- Z.div2_div.
  destruct m as [|[p|p|]|]; try reflexivity. lia.
Qed.

(** After [j + 1] shifts the record holds the quotient by [2 ^ (j + 1)],
    the bit below it and whether anything lower was set. *)
Lemma shr_iter (M : Z) (j : nat) :
  0 <= M ->
  Nat.iter (S j) shr_1 (Build_shr_record M false false) =
    Build_shr_record (M / 2 ^ Z.of_nat (S j))
                     (Z.odd (M / 2 ^ Z.of_nat j))
                     (negb (M mod 2 ^ Z.of_nat j =? 0)).
Proof.
  intros HM. induction j as [|j IH].
  - cbn [Nat.iter]. rewrite shr_1_nonneg by assumption.
    change (2 ^ Z.of_nat 1) with 2. change (2 ^ Z.of_nat 0) with 1.
    now rewrite Z.div_1_r, Z.mod_1_r.
  - rewrite Nat.iter_succ, IH.
    assert (Hp : 0 < 2 ^ Z.of_nat j) by (apply pow2_pos; lia).
    assert (E1 : 2 ^ Z.of_nat (S j) = 2 ^ Z.of_nat j * 2).
    { rewrite Nat2Z.inj_succ, Z.pow_succ_r by lia. ring. }
    assert (E2 : 2 ^ Z.of_nat (S (S j)) = 2 ^ Z.of_nat (S j) * 2).
    { rewrite (Nat2Z.inj_succ (S j)), Z.pow_succ_r by lia. ring. }
    rewrite shr_1_nonneg.
    2:{ apply Z.div_pos; lia. }
    f_equal.
    + rewrite E2, Z.div_div by lia. reflexivity.
    + rewrite E1. rewrite Z.rem_mul_r by lia.
      rewrite Zodd_mod.
      pose proof (Z.mod_pos_bound M (2 ^ Z.of_nat j) Hp).
      pose proof (Z.mod_pos_bound (M / 2 ^ Z.of_nat j) 2 ltac:(lia)).
      destruct (Z.eqb_spec ((M / 2 ^ Z.of_nat j) mod 2) 1),
               (Z.eqb_spec (M mod 2 ^ Z.of_nat j) 0),
               (Z.eqb_spec (M mod 2 ^ Z.of_nat j
                            + 2 ^ Z.of_nat j * ((M / 2 ^ Z.of_nat j) mod 2)) 0);
        try reflexivity; exfalso; nia.
Qed.

(** Rounding the shifted record is rounding the quotient. *)
Lemma shr_round (M : Z) (j : nat) :
  0 <= M ->
  let mrs := Nat.iter (S j) shr_1 (Build_shr_record M false false) in
  shr_m mrs = M / 2 ^ Z.of_nat (S j) /\
  round_nearest_even (shr_m mrs) (loc_of_shr_record mrs)
    = rne_div M (2 ^ Z.of_nat (S j)).
Proof.
  intros HM mrs. subst mrs. rewrite shr_iter by assumption.
  split; [reflexivity|]. cbn [shr_m].
  assert (Hp : 0 < 2 ^ Z.of_nat j) by (apply pow2_pos; lia).
  assert (E1 : 2 ^ Z.of_nat (S j) = 2 ^ Z.of_nat j * 2).
  { rewrite Nat2Z.inj_succ, Z.pow_succ_r by lia. ring. }
  assert (Hrem : M mod 2 ^ Z.of_nat (S j)
                 = M mod 2 ^ Z.of_nat j
                   + 2 ^ Z.of_nat j * ((M / 2 ^ Z.of_nat j) mod 2)).
  { rewrite E1. apply Z.rem_mul_r; lia. }
  unfold rne_div. rewrite Hrem. set (Q := M / 2 ^ Z.of_nat (S j)).
  rewrite E1, Zodd_mod.
  pose proof (Z.mod_pos_bound M (2 ^ Z.of_nat j) Hp).
  pose proof (Z.mod_pos_bound (M / 2 ^ Z.of_nat j) 2 ltac:(lia)).
  set (l := M mod 2 ^ Z.of_nat j) in *.
  set (b := (M / 2 ^ Z.of_nat j) mod 2) in *.
  set (h := 2 ^ Z.of_nat j) in *.
  destruct (Z.eqb_spec b 1), (Z.eqb_spec l 0);
    cbn [negb loc_of_shr_record round_nearest_even];
    destruct (Z.compare_spec (2 * (l + h * b)) (h * 2));
    try reflexivity; exfalso; nia.
Qed.

Lemma fexp_eq (e : Z) : fexp prec emax e = Z.max (e - 53) (-1074).
Proof. reflexivity. Qed.

Lemma inf_units_low : inf_units = 2 ^ 52 * 2 ^ 2046.
Proof. unfold inf_units. rewrite <- Z.pow_add_r by lia. reflexivity. Qed.

Lemma inf_units_high : inf_units = 2 ^ 53 * 2 ^ 2045.
Proof. unfold inf_units. rewrite <- Z.pow_add_r by lia. reflexivity. Qed.

(** A 53-bit mantissa at a binary64 exponent is below the infinity. *)
Lemma below_inf (a x : Z) :
  0 < a < 2 ^ 53 -> 0 <= x <= 2045 -> a * 2 ^ x < inf_units.
Proof.
  intros Ha Hx. rewrite inf_units_high.
  assert (0 < 2 ^ x) by (apply pow2_pos; lia).
  assert (2 ^ x <= 2 ^ 2045) by (apply Z.pow_le_mono_r; lia).
  apply Z.lt_le_trans with (2 ^ 53 * 2 ^ x).
  - apply Z.mul_lt_mono_pos_r; lia.
  - apply Z.mul_le_mono_nonneg_l; lia.
Qed.

(** A full mantissa at a larger exponent is not. *)
Lemma above_inf (a x : Z) :
  2 ^ 52 <= a -> 2046 <= x -> inf_units <= a * 2 ^ x.
Proof.
  intros Ha Hx. rewrite inf_units_low.
  assert (2 ^ 2046 <= 2 ^ x) by (apply Z.pow_le_mono_r; lia).
  apply Z.mul_le_mono_nonneg; lia.
Qed.

(** A value that a 53-bit mantissa holds is not changed by rounding. *)
Lemma round53_representable (m j : Z) :
  0 < m -> Zdigits2 m <= 53 -> 0 <= j -> round53 (m * 2 ^ j) = m * 2 ^ j.
Proof.
  intros Hm Hd Hj.
  destruct (Z.le_gt_cases (Zdigits2 (m * 2 ^ j)) 53) as [H|H].
  - now apply round53_small.
  - rewrite round53_large by assumption.
    rewrite Zdigits2_shift in * by assumption.
    set (k := Zdigits2 m + j - 53) in *.
    replace (m * 2 ^ j) with (m * 2 ^ (j - k) * 2 ^ k).
    + rewrite rne_div_exact; [reflexivity|]. apply pow2_pos. lia.
    + rewrite <- Z.mul_assoc, <- Z.pow_add_r by lia. do 2 f_equal. lia.
Qed.

Lemma shr_fexp_spec (m e : Z) :
  0 < m ->
  let n := fexp prec emax (Zdigits2 m + e) - e in
  let r := shr_fexp prec emax m e loc_Exact in
  (n <= 0 -> r = (Build_shr_record m false false, e)) /\
  (0 < n ->
   snd r = e + n /\ shr_m (fst r) = m / 2 ^ n /\
   round_nearest_even (shr_m (fst r)) (loc_of_shr_record (fst r))
     = rne_div m (2 ^ n)).
Proof.
  intros Hm n r. subst r. unfold shr_fexp, shr. fold n.
  cbn [shr_record_of_loc].
  destruct n as [|p|p] eqn:En; (split; [intros Hle|intros Hlt]); try lia;
    try reflexivity.
  destruct (Pos2Nat.is_succ p) as [j Hj].
  assert (Ep : Zpos p = Z.of_nat (S j)) by lia.
  rewrite iter_pos_nat, Hj. cbn [fst snd]. rewrite Ep.
  pose proof (shr_round m j ltac:(lia)) as [H1 H2]. cbv zeta in H1, H2.
  auto.
Qed.

(** The library's rounding of [m * 2 ^ e], in units. *)
Lemma binary_round_aux_units (neg : bool) (m e : Z) :
  0 < m -> -1074 <= e -> e <= fexp prec emax (Zdigits2 m + e) ->
  fits (binary_round_aux prec emax neg m e loc_Exact) = true /\
  units (binary_round_aux prec emax neg m e loc_Exact)
    = cond_Zopp neg (round_mag (m * 2 ^ (e + 1074))).
Proof.
  intros Hm He Hn. unfold binary_round_aux, round_mag.
  pose proof (Zdigits2_bounds m Hm) as [Hml Hmh].
  pose proof (Zdigits2_pos m Hm) as Hd.
  pose proof (shr_fexp_spec m e Hm) as [H0 Hpos]. cbv zeta in H0, Hpos.
  rewrite fexp_eq in *.
  destruct (Z.eq_dec (Z.max (Zdigits2 m + e - 53) (-1074) - e) 0) as [En|En].
  - (* the mantissa already sits at its exponent *)
    rewrite H0 by lia. cbn [shr_m loc_of_shr_record round_nearest_even].
    rewrite H0 by lia. cbn [shr_m].
    assert (Hd53 : Zdigits2 m <= 53) by lia.
    rewrite round53_representable by lia.
    destruct m as [|p|p]; try lia.
    change (Z.sub emax prec) with 971.
    destruct (Z.leb_spec e 971) as [Hle|Hgt].
    + cbn [fits units]. split.
      * cbn [Zdigits2] in Hd53.
        destruct (Z.leb_spec (-1074) e), (Z.leb_spec e 971),
                 (Z.leb_spec (Zpos (digits2_pos p)) 53); lia || reflexivity.
      * f_equal. rewrite Z.min_l; [reflexivity|].
        apply Z.lt_le_incl, below_inf; [|lia].
        split; [lia|]. apply Z.lt_le_trans with (2 ^ Zdigits2 (Zpos p)); [lia|].
        apply Z.pow_le_mono_r; lia.
    + cbn [fits units]. split; [reflexivity|].
      f_equal. rewrite Z.min_r; [reflexivity|].
      apply above_inf; [|lia].
      apply Z.le_trans with (2 ^ (Zdigits2 (Zpos p) - 1)); [|lia].
      apply Z.pow_le_mono_r; lia.
  - (* the mantissa is shifted right and rounded *)
    set (n := Z.max (Zdigits2 m + e - 53) (-1074) - e) in *.
    assert (Hn0 : 0 < n) by lia.
    assert (Hnd : n = Zdigits2 m - 53) by lia.
    destruct (Hpos Hn0) as (He' & _ & Hrnd). clear H0 Hpos.
    destruct (shr_fexp prec emax m e loc_Exact) as [mrs e'].
    cbn [fst snd] in He', Hrnd. rewrite Hrnd, He'. clear Hrnd He' mrs e'.
    set (m2 := rne_div m (2 ^ n)).
    assert (Hp : 0 < 2 ^ n) by (apply pow2_pos; lia).
    assert (E52 : 2 ^ (Zdigits2 m - 1) = 2 ^ 52 * 2 ^ n).
    { rewrite <- Z.pow_add_r by lia. f_equal. lia. }
    assert (E53 : 2 ^ Zdigits2 m = 2 ^ 53 * 2 ^ n).
    { rewrite <- Z.pow_add_r by lia. f_equal. lia. }
    assert (Hm2 : 2 ^ 52 <= m2 <= 2 ^ 53).
    { split; [apply rne_div_ge | apply rne_div_le]; lia. }
    (* the rounded magnitude, in units *)
    assert (Hr53 : round53 (m * 2 ^ (e + 1074)) = m2 * 2 ^ (e + n + 1074)).
    { assert (Hdu : Zdigits2 (m * 2 ^ (e + 1074)) = Zdigits2 m + (e + 1074))
        by (apply Zdigits2_shift; lia).
      rewrite round53_large by lia. rewrite Hdu.
      replace (Zdigits2 m + (e + 1074) - 53) with (n + (e + 1074)) by lia.
      replace (e + n + 1074) with (n + (e + 1074)) by lia.
      rewrite (Z.pow_add_r 2 n (e + 1074)) by lia.
      rewrite rne_div_scale; [reflexivity | lia | apply pow2_pos; lia]. }
    rewrite Hr53.
    pose proof (shr_fexp_spec m2 (e + n) ltac:(lia)) as [H0 Hpos].
    cbv zeta in H0, Hpos. rewrite fexp_eq in *.
    change (Z.sub emax prec) with 971.
    destruct (Z.eq_dec m2 (2 ^ 53)) as [Ec|Ec].
    + (* the rounding carried into the next binade *)
      assert (Hd2 : Zdigits2 m2 = 54).
      { apply Zdigits2_unique; [|lia]. rewrite Ec. cbn. lia. }
      rewrite Hd2 in *.
      assert (Hn2 : Z.max (54 + (e + n) - 53) (-1074) - (e + n) = 1) by lia.
      rewrite Hn2 in *.
      destruct (Hpos ltac:(lia)) as (He'' & Hm'' & _). clear H0 Hpos.
      destruct (shr_fexp prec emax m2 (e + n) loc_Exact) as [mrs e''].
      cbn [fst snd] in He'', Hm''. rewrite Hm'', He''. rewrite Ec.
      change (2 ^ 53 / 2 ^ 1) with (Zpos (2 ^ 52)).
      destruct (Z.leb_spec (e + n + 1) 971) as [Hle|Hgt].
      * cbn [fits units]. split.
        { destruct (Z.leb_spec (-1074) (e + n + 1)), (Z.leb_spec (e + n + 1) 971);
            lia || reflexivity. }
        f_equal.
        replace (e + n + 1 + 1074) with (1 + (e + n + 1074)) by lia.
        rewrite (Z.pow_add_r 2 1) by lia.
        change (Zpos (2 ^ 52) * (2 ^ 1 * 2 ^ (e + n + 1074)))
          with (2 ^ 52 * (2 * 2 ^ (e + n + 1074))).
        replace (2 ^ 52 * (2 * 2 ^ (e + n + 1074)))
          with (2 ^ 53 * 2 ^ (e + n + 1074)) by (change (2 ^ 53) with (2 ^ 52 * 2); ring).
        rewrite Z.min_l; [reflexivity|].
        rewrite inf_units_high.
        apply Z.mul_le_mono_nonneg_l; [lia|].
        apply Z.pow_le_mono_r; lia.
      * cbn [fits units]. split; [reflexivity|]. f_equal.
        rewrite Z.min_r; [reflexivity|].
        rewrite inf_units_high.
        apply Z.mul_le_mono_nonneg_l; [lia|].
        apply Z.pow_le_mono_r; lia.
    + (* the rounded mantissa has 53 bits *)
      assert (Hd2 : Zdigits2 m2 = 53).
      { apply Zdigits2_unique; [|lia]. change (53 - 1) with 52. lia. }
      rewrite Hd2 in *.
      rewrite H0 by lia. cbn [shr_m].
      destruct m2 as [|p2|p2] eqn:Em2; try lia.
      destruct (Z.leb_spec (e + n) 971) as [Hle|Hgt].
      * cbn [fits units]. split.
        { cbn [Zdigits2] in Hd2. rewrite Hd2.
          destruct (Z.leb_spec (-1074) (e + n)), (Z.leb_spec (e + n) 971);
            lia || reflexivity. }
        f_equal. rewrite Z.min_l; [reflexivity|].
        apply Z.lt_le_incl, below_inf; lia.
      * cbn [fits units]. split; [reflexivity|]. f_equal.
        rewrite Z.min_r; [reflexivity|].
        apply above_inf; lia.
Qed.

Lemma pos_iter_xO (m d : positive) :
  Zpos (Pos.iter xO m d) = Zpos m * 2 ^ Zpos d.
Proof.
  induction d as [|d IH] using Pos.peano_ind.
  - cbn [Pos.iter]. rewrite Pos2Z.inj_xO. change (2 ^ 1) with 2. ring.
  - rewrite Pos.iter_succ, Pos2Z.inj_xO, IH, Pos2Z.inj_succ, Z.pow_succ_r by lia.
    ring.
Qed.

Lemma shl_align_spec (m : positive) (e e' : Z) :
  snd (shl_align m e e') = Z.min e e' /\
  Zpos (fst (shl_align m e e')) = Zpos m * 2 ^ (e - Z.min e e').
Proof.
  unfold shl_align. destruct (e' - e) as [|d|d] eqn:E; cbn [fst snd].
  - rewrite Z.min_l by lia. replace (e - e) with 0 by lia. split; [reflexivity|].
    change (2 ^ 0) with 1. ring.
  - rewrite Z.min_l by lia. replace (e - e) with 0 by lia. split; [reflexivity|].
    change (2 ^ 0) with 1. ring.
  - rewrite Z.min_r by lia. split; [reflexivity|].
    rewrite pos_iter_xO. do 2 f_equal. lia.
Qed.

Lemma binary_round_units (neg : bool) (p : positive) (e : Z) :
  -1074 <= e ->
  fits (binary_round prec emax neg p e) = true /\
  units (binary_round prec emax neg p e)
    = cond_Zopp neg (round_mag (Zpos p * 2 ^ (e + 1074))).
Proof.
  intros He. unfold binary_round.
  pose proof (shl_align_spec p e (fexp prec emax (Zpos (digits2_pos p) + e)))
    as [Hs Hf].
  destruct (shl_align p e (fexp prec emax (Zpos (digits2_pos p) + e)))
    as [mz ez]. cbn [fst snd] in Hs, Hf.
  rewrite fexp_eq in Hs, Hf.
  set (F := Z.max (Zpos (digits2_pos p) + e - 53) (-1074)) in *.
  rewrite <- Hs in Hf.
  assert (Hd : Zdigits2 (Zpos mz) = Zpos (digits2_pos p) + (e - ez)).
  { rewrite Hf. apply (Zdigits2_shift (Zpos p)); lia. }
  assert (Hv : Zpos mz * 2 ^ (ez + 1074) = Zpos p * 2 ^ (e + 1074)).
  { rewrite Hf, <- Z.mul_assoc, <- Z.pow_add_r by lia. do 2 f_equal. lia. }
  rewrite <- Hv.
  apply binary_round_aux_units; [lia | lia |].
  rewrite fexp_eq, Hd.
  replace (Zpos (digits2_pos p) + (e - ez) + ez) with (Zpos (digits2_pos p) + e) by lia.
  fold F. lia.
Qed.

Lemma valid_finite (neg : bool) (m : positive) (e : Z) :
  valid (S754_finite neg m e) = true ->
  -1074 <= e <= 971 /\ Zpos (digits2_pos m) <= 53 /\
  Z.max (Zpos (digits2_pos m) + e - 53) (-1074) = e.
Proof.
  unfold valid, valid_binary, bounded, canonical_mantissa.
  rewrite fexp_eq. change (Z.sub emax prec) with 971.
  intros H. apply andb_true_iff in H as [H1 H2].
  apply Z.eqb_eq in H1. apply Z.leb_le in H2. lia.
Qed.

Lemma valid_fits (x : float) : valid x = true -> is_finite x = true -> fits x = true.
Proof.
  destruct x as [s|s| |s m e]; try discriminate; try reflexivity.
  intros Hv _. apply valid_finite in Hv. cbn [fits]. lia.
Qed.

Lemma round_mag_zero : round_mag 0 = 0.
Proof.
  unfold round_mag. rewrite round53_zero. apply Z.min_l.
  apply Z.lt_le_incl, pow2_pos. lia.
Qed.

(** Rounding leaves the value of a float in range alone. *)
Lemma round_mag_fits (neg : bool) (m : positive) (e : Z) :
  fits (S754_finite neg m e) = true ->
  round_mag (Zpos m * 2 ^ (e + 1074)) = Zpos m * 2 ^ (e + 1074).
Proof.
  cbn [fits]. intros H.
  assert (H' : -1074 <= e <= 971 /\ Zpos (digits2_pos m) <= 53) by lia.
  clear H. destruct H' as [He Hd].
  unfold round_mag. rewrite round53_representable by (cbn [Zdigits2]; lia).
  apply Z.min_l, Z.lt_le_incl, below_inf; [|lia].
  split; [lia|]. pose proof (digits2_pos_bounds m) as [_ Hh].
  apply Z.lt_le_trans with (2 ^ Zpos (digits2_pos m)); [lia|].
  apply Z.pow_le_mono_r; lia.
Qed.

Lemma cond_Zopp_negb (neg : bool) (a : Z) :
  cond_Zopp (negb neg) a = - cond_Zopp neg a.
Proof. destruct neg; cbn; lia. Qed.

Lemma cond_Zopp_mul (neg : bool) (a b : Z) :
  cond_Zopp neg a * b = cond_Zopp neg (a * b).
Proof. destruct neg; cbn; lia. Qed.

Lemma units_finite_round (neg : bool) (m : positive) (e : Z) :
  fits (S754_finite neg m e) = true ->
  units (S754_finite neg m e)
    = odd_ext round_mag (units (S754_finite neg m e)).
Proof.
  intros H. cbn [units]. rewrite (odd_ext_cond_Zopp round_mag neg).
  - now rewrite (round_mag_fits neg).
  - assert (0 < 2 ^ (e + 1074)) by (cbn [fits] in H; apply pow2_pos; lia). lia.
Qed.

(** Subtraction is the exact difference, rounded. *)
Lemma fsub_units (x y : float) :
  valid x = true -> valid y = true ->
  is_finite x = true -> is_finite y = true ->
  fits (fsub x y) = true /\
  units (fsub x y) = odd_ext round_mag (units x - units y).
Proof.
  intros Vx Vy Fx Fy.
  pose proof (valid_fits x Vx Fx) as Wx. pose proof (valid_fits y Vy Fy) as Wy.
  destruct x as [sx|sx| |sx mx ex]; try discriminate;
    destruct y as [sy|sy| |sy my ey]; try discriminate.
  - split; [destruct sx, sy; reflexivity|].
    cbn [units]. change (odd_ext round_mag (0 - 0)) with (round_mag 0).
    rewrite round_mag_zero. destruct sx, sy; reflexivity.
  - unfold fsub, SFsub. split; [exact Wy|].
    rewrite (units_finite_round (negb sy) my ey Wy). f_equal. cbn [units].
    rewrite cond_Zopp_negb. lia.
  - unfold fsub, SFsub. split; [exact Wx|].
    rewrite (units_finite_round sx mx ex Wx) at 1. f_equal. cbn [units]. lia.
  - apply valid_finite in Vx, Vy.
    unfold fsub, SFsub.
    pose proof (shl_align_spec mx ex (Z.min ex ey)) as [_ Hx].
    pose proof (shl_align_spec my ey (Z.min ex ey)) as [_ Hy].
    rewrite (Z.min_r ex (Z.min ex ey)) in Hx by lia.
    rewrite (Z.min_r ey (Z.min ex ey)) in Hy by lia.
    rewrite Hx, Hy.
    set (ez := Z.min ex ey) in *.
    assert (Hu : units (S754_finite sx mx ex) - units (S754_finite sy my ey)
                 = (cond_Zopp sx (Zpos mx * 2 ^ (ex - ez))
                    - cond_Zopp sy (Zpos my * 2 ^ (ey - ez))) * 2 ^ (ez + 1074)).
    { cbn [units]. rewrite Z.mul_sub_distr_r, !cond_Zopp_mul.
      rewrite <- !Z.mul_assoc, <- !Z.pow_add_r by lia.
      do 4 f_equal; lia. }
    rewrite Hu.
    assert (Hp : 0 < 2 ^ (ez + 1074)) by (apply pow2_pos; lia).
    destruct (cond_Zopp sx (Zpos mx * 2 ^ (ex - ez))
              - cond_Zopp sy (Zpos my * 2 ^ (ey - ez))) as [|p|p];
      cbn [binary_normalize].
    + split; [reflexivity|]. cbn [units].
      change (odd_ext round_mag (0 * 2 ^ (ez + 1074))) with (round_mag 0).
      now rewrite round_mag_zero.
    + destruct (binary_round_units false p ez ltac:(lia)) as [Hf Hun].
      split; [exact Hf|]. rewrite Hun.
      rewrite <- (odd_ext_cond_Zopp round_mag false) by lia. reflexivity.
    + destruct (binary_round_units true p ez ltac:(lia)) as [Hf Hun].
      split; [exact Hf|]. rewrite Hun.
      rewrite <- (odd_ext_cond_Zopp round_mag true) by lia.
      f_equal. cbn [cond_Zopp]. lia.
Qed.

(** Subtracting the same float keeps the order. *)
Lemma fsub_mono (a b c : float) :
  valid a = true -> valid b = true -> valid c = true ->
  is_finite a = true -> is_finite b = true -> is_finite c = true ->
  units a <= units b ->
  units (fsub a c) <= units (fsub b c).
Proof.
  intros Va Vb Vc Fa Fb Fc H.
  destruct (fsub_units a c Va Vc Fa Fc) as [_ ->].
  destruct (fsub_units b c Vb Vc Fb Fc) as [_ ->].
  apply odd_ext_mono.
  - apply round_mag_mono.
  - apply round_mag_nonneg.
  - lia.
Qed.

(** ** Comparison *)

(** Of two binary64 mantissas, the one at the lower exponent is smaller. *)
Lemma valid_exponent_lt (s1 s2 : bool) (m1 m2 : positive) (e1 e2 : Z) :
  valid (S754_finite s1 m1 e1) = true ->
  valid (S754_finite s2 m2 e2) = true ->
  e1 < e2 ->
  Zpos m1 * 2 ^ (e1 + 1074) < Zpos m2 * 2 ^ (e2 + 1074).
Proof.
  intros V1 V2 He. apply valid_finite in V1, V2.
  pose proof (digits2_pos_bounds m1) as [_ H1].
  pose proof (digits2_pos_bounds m2) as [H2 _].
  assert (Hd2 : Zpos (digits2_pos m2) = 53) by lia.
  rewrite Hd2 in H2. change (53 - 1) with 52 in H2.
  assert (Hm1 : Zpos m1 < 2 ^ 53).
  { apply Z.lt_le_trans with (2 ^ Zpos (digits2_pos m1)); [lia|].
    apply Z.pow_le_mono_r; lia. }
  assert (Hp1 : 0 < 2 ^ (e1 + 1074)) by (apply pow2_pos; lia).
  assert (Hp2 : 2 * 2 ^ (e1 + 1074) <= 2 ^ (e2 + 1074)).
  { rewrite <- Z.pow_succ_r by lia. apply Z.pow_le_mono_r; lia. }
  apply Z.lt_le_trans with (2 ^ 53 * 2 ^ (e1 + 1074)).
  - apply Z.mul_lt_mono_pos_r; lia.
  - change (2 ^ 53) with (2 ^ 52 * 2). rewrite <- Z.mul_assoc.
    apply Z.mul_le_mono_nonneg; lia.
Qed.

(** [x <= y] on binary64 values is the order of their values. *)
Lemma fleb_units (a b : float) :
  valid a = true -> valid b = true ->
  is_finite a = true -> is_finite b = true ->
  fleb a b = true -> units a <= units b.
Proof.
  intros Va Vb Fa Fb. unfold fleb, SFleb.
  destruct a as [sa|sa| |sa ma ea]; try discriminate;
    destruct b as [sb|sb| |sb mb eb]; try discriminate; cbn [SFcompare units].
  - assert (0 < 2 ^ (eb + 1074)) by (apply valid_finite in Vb; apply pow2_pos; lia).
    destruct sb; [discriminate|]. intros _. cbn [cond_Zopp]. lia.
  - assert (0 < 2 ^ (ea + 1074)) by (apply valid_finite in Va; apply pow2_pos; lia).
    destruct sa; [|discriminate]. intros _. cbn [cond_Zopp]. lia.
  - pose proof (valid_exponent_lt sa sb ma mb ea eb Va Vb) as Hlt.
    pose proof (valid_exponent_lt sb sa mb ma eb ea Vb Va) as Hgt.
    assert (0 < 2 ^ (ea + 1074)) by (apply valid_finite in Va; apply pow2_pos; lia).
    assert (0 < 2 ^ (eb + 1074)) by (apply valid_finite in Vb; apply pow2_pos; lia).
    change (Pos.compare_cont Eq ma mb) with (Pos.compare ma mb).
    destruct sa, sb; cbn [cond_Zopp]; try discriminate; try lia;
      destruct (Z.compare_spec ea eb) as [->|He|He]; try discriminate;
      try (intros _; lia);
      destruct (Pos.compare_spec ma mb) as [->|Hm|Hm]; cbn [CompOpp];
      try discriminate; intros _; try lia; nia.
Qed.

(** ** The number a formatted float denotes *)

Lemma centis_mag_zero : centis_mag 0 = 0.
Proof. reflexivity. Qed.

Lemma centis_mag_mono (u v : Z) : 0 <= u -> u <= v -> centis_mag u <= centis_mag v.
Proof.
  intros _ H. unfold centis_mag. apply rne_div_mono; [|lia].
  apply pow2_pos. lia.
Qed.

Lemma centis_mag_nonneg (u : Z) : 0 <= u -> 0 <= centis_mag u.
Proof.
  intros H. rewrite <- centis_mag_zero. now apply centis_mag_mono.
Qed.

Lemma centis_abs_units (m : positive) (e : Z) :
  -1074 <= e -> centis_abs m e = centis_mag (Zpos m * 2 ^ (e + 1074)).
Proof.
  intros He. unfold centis_abs, centis_mag.
  assert (H1074 : 0 < 2 ^ 1074) by (apply pow2_pos; lia).
  destruct e as [|k|k].
  - change (0 + 1074) with 1074. change (2 ^ 0) with 1.
    replace (100 * (Zpos m * 2 ^ 1074)) with (100 * Zpos m * 1 * 2 ^ 1074) by ring.
    now rewrite rne_div_exact.
  - rewrite Z.pow_add_r by lia.
    replace (100 * (Zpos m * (2 ^ Zpos k * 2 ^ 1074)))
      with (100 * Zpos m * 2 ^ Zpos k * 2 ^ 1074) by ring.
    now rewrite rne_div_exact.
  - assert (Hk : Zpos k <= 1074) by lia.
    assert (E : 2 ^ 1074 = 2 ^ Zpos k * 2 ^ (Zneg k + 1074)).
    { rewrite <- Z.pow_add_r by lia. f_equal. lia. }
    rewrite E.
    replace (100 * (Zpos m * 2 ^ (Zneg k + 1074)))
      with (100 * Zpos m * 2 ^ (Zneg k + 1074)) by ring.
    rewrite rne_div_scale; [reflexivity| |]; apply pow2_pos; lia.
Qed.

Lemma centis_abs_nonneg (m : positive) (e : Z) : 0 <= centis_abs m e.
Proof.
  unfold centis_abs. destruct e as [|k|k].
  - lia.
  - assert (0 < 2 ^ Zpos k) by (apply pow2_pos; lia). nia.
  - apply rne_div_ge; [apply pow2_pos; lia | lia].
Qed.

(** A float in range denotes the hundredths nearest to its value. *)
Lemma tval_of_float_units (x : float) :
  fits x = true -> is_finite x = true ->
  tval_of_float x = Some (TNum (odd_ext centis_mag (units x))).
Proof.
  destruct x as [s|s| |s m e]; try discriminate; intros Hf _.
  - reflexivity.
  - cbn [fits] in Hf. cbn [tval_of_float units].
    rewrite centis_abs_units by lia.
    rewrite (odd_ext_cond_Zopp centis_mag s); [reflexivity|].
    assert (0 < 2 ^ (e + 1074)) by (apply pow2_pos; lia). lia.
Qed.

Lemma fits_below_inf (x : float) :
  fits x = true -> is_finite x = true -> - inf_units < units x < inf_units.
Proof.
  assert (Hi : 0 < inf_units) by (apply pow2_pos; lia).
  destruct x as [s|s| |s m e]; try discriminate; intros Hf _.
  - cbn. lia.
  - cbn [fits] in Hf. cbn [units].
    assert (H : 0 < Zpos m * 2 ^ (e + 1074) < inf_units).
    { split.
      - assert (0 < 2 ^ (e + 1074)) by (apply pow2_pos; lia). lia.
      - apply below_inf; [|lia]. split; [lia|].
        pose proof (digits2_pos_bounds m) as [_ Hh].
        apply Z.lt_le_trans with (2 ^ Zpos (digits2_pos m)); [lia|].
        apply Z.pow_le_mono_r; lia. }
    destruct s; cbn [cond_Zopp]; lia.
Qed.

(** Formatting keeps the order of the values. *)
Lemma tval_of_float_mono (x y : float) :
  fits x = true -> fits y = true -> units x <= units y ->
  exists tx ty,
    tval_of_float x = Some tx /\ tval_of_float y = Some ty /\ tval_le tx ty.
Proof.
  intros Fx Fy H.
  assert (Hi : 0 < inf_units) by (apply pow2_pos; lia).
  destruct (is_finite x) eqn:Ex, (is_finite y) eqn:Ey.
  - rewrite (tval_of_float_units x Fx Ex), (tval_of_float_units y Fy Ey).
    do 2 eexists. split; [reflexivity|]. split; [reflexivity|]. cbn.
    apply odd_ext_mono; [apply centis_mag_mono | apply centis_mag_nonneg | exact H].
  - pose proof (fits_below_inf x Fx Ex).
    rewrite (tval_of_float_units x Fx Ex).
    destruct y as [s|[|]| |s m e]; try discriminate; cbn [units cond_Zopp] in H.
    + lia.
    + do 2 eexists. split; [reflexivity|]. split; [reflexivity|]. exact I.
  - pose proof (fits_below_inf y Fy Ey).
    rewrite (tval_of_float_units y Fy Ey).
    destruct x as [s|[|]| |s m e]; try discriminate; cbn [units cond_Zopp] in H.
    + do 2 eexists. split; [reflexivity|]. split; [reflexivity|]. exact I.
    + lia.
  - destruct x as [s|[|]| |s m e]; try discriminate;
      destruct y as [s'|[|]| |s' m' e']; try discriminate;
      cbn [units cond_Zopp] in H; try lia;
      do 2 eexists; (split; [reflexivity|]); (split; [reflexivity|]); exact I.
Qed.

Local Open Scope string_scope.

(** ** Reading back what ['%.2f'] wrote *)

Lemma digit_cases (d : Z) :
  0 <= d <= 9 ->
  d = 0 \/ d = 1 \/ d = 2 \/ d = 3 \/ d = 4 \/ d = 5 \/ d = 6 \/ d = 7 \/
  d = 8 \/ d = 9.
Proof. lia. Qed.

Ltac each_digit H :=
  apply digit_cases in H;
  repeat (destruct H as [H|H]; [subst|]); [..|subst].

Lemma digit_val_char (d : Z) : 0 <= d <= 9 -> digit_val (digit_char d) = Some d.
Proof. intros H. each_digit H; reflexivity. Qed.

Lemma take_digits_digit (d : Z) (s : string) (a : Z) :
  0 <= d <= 9 ->
  take_digits (String (digit_char d) s) a = take_digits s (10 * a + d).
Proof. intros H. cbn [take_digits]. now rewrite digit_val_char. Qed.

Lemma dec_digits_app (f : nat) (n : Z) (acc rest : string) :
  dec_digits f n acc ++ rest = dec_digits f n (acc ++ rest).
Proof.
  revert n acc. induction f as [|f IH]; intros n acc; cbn [dec_digits].
  - reflexivity.
  - destruct (n <? 10)%Z; [reflexivity|]. now rewrite IH.
Qed.

(** Reading the digits of [n] appends them to what was read before. *)
Lemma dec_digits_take (f : nat) (n : Z) (acc : string) :
  0 <= n < 10 ^ Z.of_nat f ->
  exists k, 0 <= k /\
    forall a, take_digits (dec_digits f n acc) a
              = take_digits acc (a * 10 ^ k + n).
Proof.
  revert n acc. induction f as [|f IH]; intros n acc Hn.
  - exists 0. split; [lia|]. intros a. cbn [dec_digits].
    change (10 ^ Z.of_nat 0) with 1 in Hn. f_equal. change (10 ^ 0) with 1. lia.
  - cbn [dec_digits].
    assert (Hd : 0 <= n mod 10 <= 9) by (pose proof (Z.mod_pos_bound n 10); lia).
    destruct (Z.ltb_spec n 10) as [Hlt|Hge].
    + exists 1. split; [lia|]. intros a.
      rewrite take_digits_digit by assumption.
      f_equal. rewrite Z.mod_small by lia. change (10 ^ 1) with 10. lia.
    + rewrite Nat2Z.inj_succ, Z.pow_succ_r in Hn by lia.
      destruct (IH (n / 10) (String (digit_char (n mod 10)) acc)) as (k & Hk & Hr).
      { split; [apply Z.div_pos; lia|]. apply Z.div_lt_upper_bound; lia. }
      exists (k + 1). split; [lia|]. intros a.
      rewrite Hr, take_digits_digit by assumption. f_equal.
      rewrite Z.pow_add_r by lia. change (10 ^ 1) with 10.
      pose proof (Z.div_mod n 10 ltac:(lia)). lia.
Qed.

Lemma dec_string_fuel (n : Z) :
  0 <= n -> n < 10 ^ Z.of_nat (S (Z.to_nat (Z.log2 n))).
Proof.
  intros Hn. destruct (Z.eq_dec n 0) as [->|Hnz]; [cbn; lia|].
  pose proof (Z.log2_spec n ltac:(lia)) as [_ Hh].
  pose proof (Z.log2_nonneg n).
  rewrite Nat2Z.inj_succ, Z2Nat.id by assumption.
  apply Z.lt_le_trans with (2 ^ Z.succ (Z.log2 n)); [assumption|].
  apply Z.pow_le_mono_l. lia.
Qed.

Lemma dec_string_take (n : Z) (rest : string) :
  0 <= n -> take_digits (dec_string n ++ rest) 0 = take_digits rest n.
Proof.
  intros Hn. unfold dec_string. rewrite dec_digits_app.
  destruct (dec_digits_take (S (Z.to_nat (Z.log2 n))) n ("" ++ rest))
    as (k & _ & Hr).
  - split; [assumption | now apply dec_string_fuel].
  - rewrite Hr. reflexivity.
Qed.

(** A number rendered in decimal starts with a digit. *)
Lemma dec_digits_head (f : nat) (n : Z) (acc : string) :
  exists d r, 0 <= d <= 9 /\ dec_digits (S f) n acc = String (digit_char d) r.
Proof.
  revert n acc. induction f as [|f IH]; intros n acc.
  - exists (n mod 10), acc. split.
    + pose proof (Z.mod_pos_bound n 10). lia.
    + cbn [dec_digits]. destruct (n <? 10)%Z; reflexivity.
  - change (dec_digits (S (S f)) n acc)
      with (if (n <? 10)%Z then String (digit_char (n mod 10)) acc
            else dec_digits (S f) (n / 10) (String (digit_char (n mod 10)) acc)).
    destruct (n <? 10)%Z.
    + exists (n mod 10), acc. split; [|reflexivity].
      pose proof (Z.mod_pos_bound n 10). lia.
    + apply IH.
Qed.

Lemma fixed2_read (neg : bool) (c : Z) :
  0 <= c -> tval_of_str (fixed2 neg c) = Some (TNum (cond_Zopp neg c)).
Proof.
  intros Hc. unfold fixed2.
  set (tail := String (digit_char (c mod 100 / 10))
                 (String (digit_char (c mod 10)) "")).
  assert (Hq : 0 <= c / 100) by (apply Z.div_pos; lia).
  assert (Hd1 : 0 <= c mod 100 / 10 <= 9).
  { pose proof (Z.mod_pos_bound c 100 ltac:(lia)).
    split; [apply Z.div_pos; lia|].
    apply Z.lt_succ_r, Z.div_lt_upper_bound; lia. }
  assert (Hd2 : 0 <= c mod 10 <= 9) by (pose proof (Z.mod_pos_bound c 10); lia).
  assert (Hv : 100 * (c / 100) + 10 * (c mod 100 / 10) + c mod 10 = c).
  { clear -Hc. Z.div_mod_to_equations. lia. }
  assert (Hbody :
    forall sgn : bool,
      (let body := dec_string (c / 100) ++ "." ++ tail in
       if String.eqb body "inf" then Some (if sgn then TNegInf else TPosInf)
       else
         match body with
         | String ch _ =>
             match digit_val ch with
             | None => None
             | Some _ =>
                 match take_digits body 0 with
                 | (ip, String "." (String c1 (String c2 EmptyString))) =>
                     match digit_val c1, digit_val c2 with
                     | Some d1, Some d2 =>
                         let v := (100 * ip + 10 * d1 + d2)%Z in
                         Some (TNum (if sgn then (- v)%Z else v))
                     | _, _ => None
                     end
                 | _ => None
                 end
             end
         | EmptyString => None
         end) = Some (TNum (cond_Zopp sgn c))).
  { intros sgn. cbv zeta.
    rewrite dec_string_take by assumption.
    unfold dec_string.
    destruct (dec_digits_head (Z.to_nat (Z.log2 (c / 100))) (c / 100) "")
      as (d & r & Hd & ->).
    assert (Hinf : String.eqb (String (digit_char d) r ++ "." ++ tail) "inf" = false).
    { each_digit Hd; reflexivity. }
    rewrite Hinf. cbn [append]. rewrite digit_val_char by assumption.
    cbn [take_digits digit_val]. subst tail.
    change (digit_val ".") with (@None Z). cbv iota beta.
    rewrite !digit_val_char by assumption.
    rewrite Hv. destruct sgn; reflexivity. }
  destruct neg.
  - cbn [append]. unfold tval_of_str. exact (Hbody true).
  - cbn [append]. unfold tval_of_str.
    specialize (Hbody false). cbv zeta in Hbody.
    unfold dec_string in *.
    destruct (dec_digits_head (Z.to_nat (Z.log2 (c / 100))) (c / 100) "")
      as (d & r & Hd & E). rewrite E in *.
    cbn [append] in *.
    each_digit Hd; exact Hbody.
Qed.

(** ['%.2f' % x] reads back as the number it denotes. *)
Lemma format_2f_read (x : float) :
  tval_of_str (format_2f x) = tval_of_float x.
Proof.
  destruct x as [s|s| |s m e]; cbn [format_2f tval_of_float].
  - rewrite fixed2_read by lia. destruct s; reflexivity.
  - destruct s; reflexivity.
  - reflexivity.
  - apply fixed2_read, centis_abs_nonneg.
Qed.

End PyFloatFacts.

(** ** The acquisition step, case by case *)
Section ReadData.

Variable startTime : PyFloat.float.

(** A line whose field count is not two: nothing happens. *)
Lemma readData_skip (l : string) (t : PyFloat.float) (c d : bool) (w : world) :
  List.length (fields l) <> 2 -> readData startTime l t c d w = (Ok tt, w).
Proof.
  intros H. unfold readData.
  apply Nat.eqb_neq in H. rewrite H, andb_false_r. reflexivity.
Qed.

(** A line of two fields: the elapsed time is appended first, each
    conversion is tried in turn, and the first that fails ends the
    program with what was appended so far. *)
Lemma readData_two (l a b : string) (t : PyFloat.float) (c d : bool)
    (w : world) :
  fields l = [a; b] ->
  readData startTime l t c d w =
    let tv := timeVal_at startTime t in
    let w1 := push_time (PyStr tv) w in
    match PyFloat.float_of_str a with
    | None => (Raise SystemExit, push_out conversion_error w1)
    | Some x =>
        let w2 := push_temp (PyFloat x) w1 in
        match PyFloat.float_of_str b with
        | None => (Raise SystemExit, push_out conversion_error w2)
        | Some y =>
            let w3 := push_co2 (PyFloat y) w2 in
            (Ok tt, if c then push_row [tv; a; b] w3 else w3)
        end
    end.
Proof.
  intros H. unfold readData. rewrite H.
  cbn [PyList.truthy List.length Nat.eqb andb nth].
  unfold try_except_ValueError, bind, timePoints_append, float_, timeVal_at.
  destruct (PyFloat.float_of_str a) as [x|]; cbn; [|reflexivity].
  destruct (PyFloat.float_of_str b) as [y|]; cbn; [|reflexivity].
  destruct c; reflexivity.
Qed.

End ReadData.

Lemma timeVal_at_sample : timeVal_at t_start t_later = "1.50".
Proof. vm_compute. reflexivity. Qed.

Lemma length_two {A : Type} (xs : list A) :
  List.length xs = 2 -> exists a b, xs = [a; b].
Proof.
  destruct xs as [|a [|b [|c xs]]]; simpl; try discriminate.
  intros _. now exists a, b.
Qed.

(** ** The fatal conversion path (C1) *)

(** C1, as stated, fails: on the line ["bad,data"], two fields of which
    neither converts, the program exits but [timePoints] has already
    received the elapsed time, so the store is not unchanged. *)
Lemma readData_bad_data_changes_store :
  fields "bad,data" = ["bad"; "data"] /\
  PyFloat.float_of_str "bad" = None /\
  fst (readData t_start "bad,data" t_later false true initial_world)
    = Raise SystemExit /\
  timePoints (snd (readData t_start "bad,data" t_later false true initial_world))
    = [PyStr "1.50"] /\
  timePoints (snd (readData t_start "bad,data" t_later false true initial_world))
    <> timePoints initial_world.
Proof.
  repeat split; try (vm_compute; reflexivity).
  vm_compute. discriminate.
Qed.

(** C1 (amended): for every line of two fields of which at least one does
    not convert to a float, the program prints the conversion error and
    exits; [co2Values] and the log file are unchanged, [timePoints] has
    received the elapsed time, and [tempValues] has received the first
    field's value when it is the second field that does not convert. *)
Theorem readData_conversion_failure
    (startTime : PyFloat.float) (l a b : string) (t : PyFloat.float)
    (csvOut debug : bool) (w : world) :
  fields l = [a; b] ->
  PyFloat.float_of_str a = None \/ PyFloat.float_of_str b = None ->
  exists w',
    readData startTime l t csvOut debug w = (Raise SystemExit, w') /\
    timePoints w' = timePoints w ++ [PyStr (timeVal_at startTime t)] /\
    tempValues w' = tempValues w ++
      match PyFloat.float_of_str a with
      | Some x => [PyFloat x]
      | None => []
      end /\
    co2Values w' = co2Values w /\
    csv_file w' = csv_file w /\
    stdout w' = stdout w ++ [conversion_error].
Proof.
  intros Hf Hbad. rewrite (readData_two _ _ _ _ _ _ _ _ Hf). cbv zeta.
  destruct (PyFloat.float_of_str a) as [x|] eqn:Ea.
  - destruct Hbad as [Hbad|Hbad]; [discriminate|]. rewrite Hbad.
    eexists; split; [reflexivity|]. cbn. auto.
  - eexists; split; [reflexivity|]. cbn. rewrite app_nil_r. auto.
Qed.

Lemma readData_conversion_failure_witness :
  exists w',
    readData t_start "22.50,x" t_later true true initial_world
      = (Raise SystemExit, w') /\
    timePoints w' = [PyStr "1.50"] /\
    List.length (tempValues w') = 1 /\
    co2Values w' = [] /\ csv_file w' = None.
Proof.
  destruct (readData_conversion_failure t_start "22.50,x" "22.50" "x" t_later
              true true initial_world)
    as (w' & Hr & Htp & Htv & Hco & Hcsv & _).
  - vm_compute; reflexivity.
  - right. vm_compute; reflexivity.
  - exists w'. split; [exact Hr|].
    rewrite Htp, Htv, Hco, Hcsv. vm_compute. auto.
Defined.

(** ** Equal lengths (C2) *)

(** C2, as stated, fails: on the line ["22.50,x"] the step ends with one
    elapsed time, one temperature and no CO2 value. *)
Lemma readData_breaks_equal_lengths :
  equal_lengths initial_world /\
  List.length
    (timePoints (snd (readData t_start "22.50,x" t_later false true initial_world)))
    = 1 /\
  List.length
    (tempValues (snd (readData t_start "22.50,x" t_later false true initial_world)))
    = 1 /\
  List.length
    (co2Values (snd (readData t_start "22.50,x" t_later false true initial_world)))
    = 0 /\
  ~ equal_lengths
      (snd (readData t_start "22.50,x" t_later false true initial_world)).
Proof.
  split; [split; reflexivity|].
  repeat split; try (vm_compute; reflexivity).
  intros [_ H]. vm_compute in H. discriminate.
Qed.

(** The outcomes of one step from a world with lists of equal length. *)
Lemma readData_lengths
    (startTime : PyFloat.float) (l : string) (t : PyFloat.float)
    (csvOut debug : bool) (w : world) :
  equal_lengths w ->
  match readData startTime l t csvOut debug w with
  | (Ok _, w') => equal_lengths w'
  | (Raise e, w') =>
      e = SystemExit /\ fatal l = true /\
      List.length (co2Values w') < List.length (timePoints w')
  end.
Proof.
  intros [H1 H2].
  destruct (Nat.eq_dec (List.length (fields l)) 2) as [E|E].
  - destruct (length_two _ E) as (a & b & Hf).
    rewrite (readData_two _ _ _ _ _ _ _ _ Hf). cbv zeta.
    unfold fatal, accepted. rewrite Hf. cbn [List.length Nat.eqb andb].
    destruct (PyFloat.float_of_str a) as [x|];
      [destruct (PyFloat.float_of_str b) as [y|]|].
    + unfold equal_lengths.
      destruct csvOut; cbn; rewrite !length_app; cbn; lia.
    + cbn. rewrite length_app. cbn. repeat split; lia.
    + cbn. rewrite length_app. cbn. repeat split; lia.
  - rewrite (readData_skip _ _ _ _ _ _ E). split; assumption.
Qed.

(** C2 (amended): from a world whose three lists have equal length, every
    invocation of the step either returns, and the lengths are equal again,
    or exits the program on a two-field line that does not convert, with
    [timePoints] longer than [co2Values]. *)
Theorem readData_equal_lengths
    (startTime : PyFloat.float) (l : string) (t : PyFloat.float)
    (csvOut debug : bool) (w : world) :
  equal_lengths w ->
  match readData startTime l t csvOut debug w with
  | (Ok _, w') => equal_lengths w'
  | (Raise e, w') =>
      e = SystemExit /\ fatal l = true /\
      List.length (co2Values w') < List.length (timePoints w')
  end.
Proof. apply readData_lengths. Qed.

Lemma readData_equal_lengths_witness :
  equal_lengths
    (snd (readData t_start "22.50,1.20" t_later true true initial_world)).
Proof.
  assert (H0 : equal_lengths initial_world) by (split; reflexivity).
  exact (readData_equal_lengths t_start "22.50,1.20" t_later true true
           initial_world H0).
Defined.

(** The lengths stay equal along a session for as long as it runs. *)
Lemma acquire_equal_lengths
    (startTime : PyFloat.float) (csvOut : bool) (ticks : list tick) (w w' : world) :
  equal_lengths w ->
  acquire startTime csvOut ticks w = (Ok tt, w') ->
  equal_lengths w'.
Proof.
  revert w. induction ticks as [|tk rest IH]; intros w Hw H.
  - cbn in H. injection H as <-. exact Hw.
  - cbn in H. unfold bind in H.
    pose proof (readData_lengths startTime (line tk) (now tk) csvOut
                  debug_default w Hw) as Hs.
    destruct (readData startTime (line tk) (now tk) csvOut debug_default w)
      as [[u|e] w1]; [|discriminate].
    eapply IH; eassumption.
Qed.

(** ** Accepted lines (C3) *)

(** What an accepted line does to the world. *)
Lemma readData_accepted
    (startTime : PyFloat.float) (l a b : string) (x y : PyFloat.float)
    (t : PyFloat.float) (csvOut debug : bool) (w : world) :
  fields l = [a; b] ->
  PyFloat.float_of_str a = Some x ->
  PyFloat.float_of_str b = Some y ->
  readData startTime l t csvOut debug w =
    (Ok tt,
     let w3 := push_co2 (PyFloat y) (push_temp (PyFloat x)
                 (push_time (PyStr (timeVal_at startTime t)) w)) in
     if csvOut then push_row [timeVal_at startTime t; a; b] w3 else w3).
Proof.
  intros Hf Ha Hb. rewrite (readData_two _ _ _ _ _ _ _ _ Hf). cbv zeta.
  now rewrite Ha, Hb.
Qed.

(** C3: a line of exactly two fields that both convert makes the step
    return with each of the three lists one element longer, and lengths
    that were equal before are equal after. *)
Theorem readData_two_numeric_fields
    (startTime : PyFloat.float) (l a b : string) (x y : PyFloat.float)
    (t : PyFloat.float) (csvOut debug : bool) (w : world) :
  fields l = [a; b] ->
  PyFloat.float_of_str a = Some x ->
  PyFloat.float_of_str b = Some y ->
  exists w',
    readData startTime l t csvOut debug w = (Ok tt, w') /\
    List.length (timePoints w') = S (List.length (timePoints w)) /\
    List.length (tempValues w') = S (List.length (tempValues w)) /\
    List.length (co2Values w') = S (List.length (co2Values w)) /\
    (equal_lengths w -> equal_lengths w').
Proof.
  intros Hf Ha Hb.
  rewrite (readData_accepted _ _ _ _ _ _ _ _ _ _ Hf Ha Hb). cbv zeta.
  eexists; split; [reflexivity|].
  unfold equal_lengths.
  destruct csvOut; cbn; rewrite !length_app; cbn; repeat split; lia.
Qed.

Lemma readData_two_numeric_fields_witness :
  exists w',
    readData t_start "22.50,1.20" t_later false true initial_world = (Ok tt, w') /\
    List.length (timePoints w') = 1 /\
    List.length (tempValues w') = 1 /\
    List.length (co2Values w') = 1.
Proof.
  destruct (readData_two_numeric_fields t_start "22.50,1.20" "22.50" "1.20"
              (S754_finite false 6333186975989760 (-48))
              (S754_finite false 5404319552844595 (-52))
              t_later false true initial_world)
    as (w' & Hr & H1 & H2 & H3 & _); try (vm_compute; reflexivity).
  exists w'. auto.
Defined.

(** ** Lines with another field count (C4) *)

(** C4: a line whose split on [","] does not give two fields is dropped:
    the step returns, and the lists, the log file and the output are what
    they were. *)
Theorem readData_discards_other_arity
    (startTime : PyFloat.float) (l : string) (t : PyFloat.float)
    (csvOut debug : bool) (w : world) :
  List.length (fields l) <> 2 ->
  readData startTime l t csvOut debug w = (Ok tt, w).
Proof. apply readData_skip. Qed.

Lemma readData_discards_other_arity_witness :
  readData t_start "1.0,2.0,3.0" t_later true true initial_world
    = (Ok tt, initial_world) /\
  readData t_start "" t_later true true initial_world
    = (Ok tt, initial_world).
Proof.
  split; apply readData_discards_other_arity; vm_compute; discriminate.
Defined.

(** ** The CSV log (C5) *)

Lemma combine_app_same {A B : Type} (xs xs' : list A) (ys ys' : list B) :
  List.length xs = List.length ys ->
  combine (xs ++ xs') (ys ++ ys') = combine xs ys ++ combine xs' ys'.
Proof.
  revert ys. induction xs as [|x xs IH]; intros [|y ys] H; simpl in *;
    try discriminate; [reflexivity|].
  f_equal. apply IH. now injection H.
Qed.

Lemma samples_push (tv x y : pyval) (w : world) :
  equal_lengths w ->
  samples (push_co2 y (push_temp x (push_time tv w))) = samples w ++ [(tv, x, y)].
Proof.
  intros [H1 H2]. unfold samples. cbn.
  rewrite !combine_app_same; [reflexivity | | assumption].
  rewrite length_combine, <- H1, Nat.min_id. congruence.
Qed.

(** One logged step: an accepted line adds its sample to the store and its
    row to the file, a line of another arity adds nothing. *)
Lemma readData_logged_step
    (startTime : PyFloat.float) (tk : tick) (w : world) :
  equal_lengths w ->
  fatal (line tk) = false ->
  exists w' new,
    readData startTime (line tk) (now tk) true debug_default w = (Ok tt, w') /\
    equal_lengths w' /\
    log_rows w' = log_rows w ++ rows_of startTime [tk] /\
    samples w' = samples w ++ new /\
    Forall2 logs (rows_of startTime [tk]) new.
Proof.
  intros Hw Hnf. unfold rows_of, fatal in *. cbn [filter map].
  destruct (Nat.eq_dec (List.length (fields (line tk))) 2) as [E|E].
  - destruct (length_two _ E) as (a & b & Hf).
    rewrite E in Hnf. cbn in Hnf. apply negb_false_iff in Hnf. rewrite Hnf.
    unfold accepted in Hnf. rewrite Hf in Hnf.
    destruct (PyFloat.float_of_str a) as [x|] eqn:Ea; [|discriminate].
    destruct (PyFloat.float_of_str b) as [y|] eqn:Eb; [|discriminate].
    rewrite (readData_accepted _ _ _ _ _ _ _ _ _ _ Hf Ea Eb). cbv zeta.
    eexists. exists [(PyStr (timeVal_at startTime (now tk)), PyFloat x, PyFloat y)].
    split; [reflexivity|]. repeat split.
    + cbn. rewrite !length_app. cbn. destruct Hw. lia.
    + cbn. rewrite !length_app. cbn. destruct Hw. lia.
    + cbn [map]. unfold row_of. rewrite Hf. reflexivity.
    + change (samples (push_row ?r ?w0)) with (samples w0).
      now apply samples_push.
    + cbn [map]. constructor; [|constructor]. unfold row_of. rewrite Hf. cbn. auto.
  - assert (Ha : accepted (line tk) = false).
    { unfold accepted. destruct (fields (line tk)) as [|a [|b [|c r]]];
        try reflexivity. now elim E. }
    rewrite Ha, (readData_skip _ _ _ _ _ _ E). cbn.
    exists w, []. rewrite !app_nil_r. repeat split; try apply Hw. constructor.
Qed.

Lemma rows_of_cons (startTime : PyFloat.float) (tk : tick) (rest : list tick) :
  rows_of startTime (tk :: rest) = rows_of startTime [tk] ++ rows_of startTime rest.
Proof.
  unfold rows_of. cbn [filter].
  destruct (accepted (line tk)); reflexivity.
Qed.

(** C5: with logging enabled, a session whose lines are accepted or dropped
    returns; the rows added to the file are, in tick order, one row per
    accepted line, made of the elapsed-time text and the two fields as
    they came off the wire; and the samples added to the store are, index
    by index, the ones these rows record. *)
Theorem csv_rows_follow_samples
    (startTime : PyFloat.float) (ticks : list tick) (w : world) :
  equal_lengths w ->
  Forall (fun tk => fatal (line tk) = false) ticks ->
  exists w' new,
    acquire startTime true ticks w = (Ok tt, w') /\
    log_rows w' = log_rows w ++ rows_of startTime ticks /\
    samples w' = samples w ++ new /\
    Forall2 logs (rows_of startTime ticks) new.
Proof.
  revert w. induction ticks as [|tk rest IH]; intros w Hw Hall.
  - exists w, []. cbn. rewrite !app_nil_r. repeat split. constructor.
  - inversion Hall as [|? ? Htk Hrest]; subst.
    destruct (readData_logged_step startTime tk w Hw Htk)
      as (w1 & new1 & Hr & Hw1 & Hl1 & Hs1 & Hf1).
    destruct (IH w1 Hw1 Hrest) as (w2 & new2 & Hr2 & Hl2 & Hs2 & Hf2).
    exists w2, (new1 ++ new2). rewrite rows_of_cons. repeat split.
    + cbn [acquire]. unfold bind. now rewrite Hr.
    + now rewrite Hl2, Hl1, app_assoc.
    + now rewrite Hs2, Hs1, app_assoc.
    + now apply Forall2_app.
Qed.

Lemma csv_rows_follow_samples_witness :
  exists w',
    acquire t_start true
      [mkTick "22.50,1.20" t_later; mkTick "" t_later; mkTick "23.10,1.35" t_later]
      initial_world = (Ok tt, w') /\
    log_rows w' = [["1.50"; "22.50"; "1.20"]; ["1.50"; "23.10"; "1.35"]] /\
    List.length (samples w') = 2.
Proof.
  assert (H0 : equal_lengths initial_world) by (split; reflexivity).
  destruct (csv_rows_follow_samples t_start
              [mkTick "22.50,1.20" t_later; mkTick "" t_later;
               mkTick "23.10,1.35" t_later] initial_world H0)
    as (w' & new & Hr & Hl & Hs & Hf).
  - repeat constructor.
  - exists w'. split; [exact Hr|]. split.
    + rewrite Hl. vm_compute. reflexivity.
    + rewrite Hs, length_app. apply Forall2_length in Hf.
      rewrite <- Hf. vm_compute. reflexivity.
Defined.

(** ** The rendering window (C6) *)

Lemma slice_from_neg {A : Type} (n : nat) (xs : list A) :
  0 < n ->
  PyList.slice_from (- Z.of_nat n) xs = skipn (List.length xs - n) xs.
Proof.
  intros Hn. unfold PyList.slice_from.
  destruct (Z.ltb_spec (- Z.of_nat n) 0) as [_|H]; [|lia].
  f_equal. lia.
Qed.

Lemma last15_skipn (xs : list pyval) :
  last15 xs = skipn (List.length xs - 15) xs.
Proof. apply (slice_from_neg 15). lia. Qed.

(** The window the renderer draws, for every state of the store. *)
Lemma last15_window (w : world) :
  let window_of xs :=
    List.length (last15 xs) = Nat.min 15 (List.length xs) /\
    exists older, xs = older ++ last15 xs in
  window_of (timePoints w) /\ window_of (tempValues w) /\ window_of (co2Values w).
Proof.
  assert (H : forall xs,
             List.length (last15 xs) = Nat.min 15 (List.length xs) /\
             exists older, xs = older ++ last15 xs).
  { intros xs. rewrite last15_skipn. split.
    - rewrite length_skipn. lia.
    - exists (firstn (List.length xs - 15) xs). now rewrite firstn_skipn. }
  cbv zeta. auto.
Qed.

Lemma window_skipn (n : nat) (xs : list pyval) :
  0 < n -> window n xs = skipn (List.length xs - n) xs.
Proof. apply slice_from_neg. Qed.

Lemma window_zero (xs : list pyval) : window 0 xs = xs.
Proof.
  unfold window, PyList.slice_from. cbn [Z.of_nat Z.opp Z.ltb Z.compare].
  now rewrite Z.min_l by lia.
Qed.

(** C6, as stated, fails for every [n] other than the one of the code:
    on a store of two samples the renderer's slice [xs[-15:]] returns both
    elements, not [min 1 2]; and with the width as a parameter the slice
    [xs[-0:]] is the whole list, not [min 0 2] elements. *)
Lemma window_not_min_for_every_n :
  List.length (last15 [PyStr "1.50"; PyStr "2.50"]) = 2 /\
  List.length (last15 [PyStr "1.50"; PyStr "2.50"])
    <> Nat.min 1 (List.length [PyStr "1.50"; PyStr "2.50"]) /\
  window 0 [PyStr "1.50"; PyStr "2.50"] = [PyStr "1.50"; PyStr "2.50"] /\
  List.length (window 0 [PyStr "1.50"; PyStr "2.50"])
    <> Nat.min 0 (List.length [PyStr "1.50"; PyStr "2.50"]).
Proof. repeat split; try reflexivity; vm_compute; discriminate. Qed.

(** C6 (amended): the renderer's window is [xs[-n:]] with [n = 15]. For
    every [n] of at least 1 and every state of the store, [xs[-n:]] holds
    exactly [min n (len xs)] elements of each list, and they are its most
    recently appended ones in insertion order: the list is some older part
    followed by the window. For [n = 0] the slice is the whole list. *)
Theorem window_last_n (n : nat) (w : world) :
  1 <= n ->
  let window_of xs :=
    List.length (window n xs) = Nat.min n (List.length xs) /\
    exists older, xs = older ++ window n xs in
  (forall xs, last15 xs = window 15 xs) /\
  (forall xs, window 0 xs = xs) /\
  window_of (timePoints w) /\ window_of (tempValues w) /\ window_of (co2Values w).
Proof.
  intros Hn.
  assert (H : forall xs,
             List.length (window n xs) = Nat.min n (List.length xs) /\
             exists older, xs = older ++ window n xs).
  { intros xs. rewrite window_skipn by lia. split.
    - rewrite length_skipn. lia.
    - exists (firstn (List.length xs - n) xs). now rewrite firstn_skipn. }
  cbv zeta. split; [reflexivity|]. split; [apply window_zero|]. auto.
Qed.

Lemma window_last_n_witness :
  List.length
    (last15 (timePoints
               (snd (readData t_start "22.50,1.20" t_later false true
                       initial_world))))
  = 1.
Proof.
  destruct (window_last_n 15
              (snd (readData t_start "22.50,1.20" t_later false true
                      initial_world)))
    as (E & _ & [Hl _] & _); [lia|].
  rewrite E, Hl. vm_compute. reflexivity.
Defined.

(** The frame a tick draws is made of these windows of the updated store. *)
Lemma update_plot_frame
    (startTime : PyFloat.float) (l : string) (t : PyFloat.float)
    (w w' : world) (fr : frame) :
  update_plot startTime l t w = (Ok fr, w') ->
  readData startTime l t false true w = (Ok tt, w') /\
  ax1_x fr = last15 (timePoints w') /\ ax1_y fr = last15 (tempValues w') /\
  ax2_x fr = last15 (timePoints w') /\ ax2_y fr = last15 (co2Values w').
Proof.
  unfold update_plot, bind, csvOut_default, debug_default.
  destruct (readData startTime l t false true w) as [[[]|e] w1]; [|discriminate].
  intros H. injection H as <- <-. cbn. auto.
Qed.

(** ** The live session never logs (C9) *)

Lemma readData_no_csv
    (startTime : PyFloat.float) (l : string) (t : PyFloat.float)
    (debug : bool) (w : world) :
  csv_file (snd (readData startTime l t false debug w)) = csv_file w.
Proof.
  destruct (Nat.eq_dec (List.length (fields l)) 2) as [E|E].
  - destruct (length_two _ E) as (a & b & Hf).
    rewrite (readData_two _ _ _ _ _ _ _ _ Hf). cbv zeta.
    destruct (PyFloat.float_of_str a); [destruct (PyFloat.float_of_str b)|];
      reflexivity.
  - now rewrite (readData_skip _ _ _ _ _ _ E).
Qed.

Lemma update_plot_no_csv
    (startTime : PyFloat.float) (l : string) (t : PyFloat.float) (w : world) :
  csv_file (snd (update_plot startTime l t w)) = csv_file w.
Proof.
  unfold update_plot, bind, csvOut_default.
  pose proof (readData_no_csv startTime l t debug_default w) as H.
  destruct (readData startTime l t false debug_default w) as [[u|e] w1];
    exact H.
Qed.

Lemma animate_no_csv
    (startTime : PyFloat.float) (ticks : list tick) (w : world) :
  csv_file (snd (animate startTime ticks w)) = csv_file w.
Proof.
  revert w. induction ticks as [|tk rest IH]; intros w; [reflexivity|].
  cbn [animate]. unfold bind.
  pose proof (update_plot_no_csv startTime (line tk) (now tk) w) as H.
  destruct (update_plot startTime (line tk) (now tk) w) as [[fr|e] w1].
  - rewrite IH. exact H.
  - exact H.
Qed.

(** C9: the timer callback calls [readData(port)], so with [csvOut] at its
    default [False]; whatever the ticks deliver, and whether the session
    runs on or exits, the log file is left as it was, and a program
    started without a log file ends without one. *)
Theorem live_session_never_logs
    (port_ok : bool) (startTime : PyFloat.float) (ticks : list tick) :
  csvOut_default = false /\
  (forall l t w, csv_file (snd (update_plot startTime l t w)) = csv_file w) /\
  (forall w, csv_file (snd (animate startTime ticks w)) = csv_file w) /\
  csv_file (snd (main port_ok startTime ticks initial_world)) = None.
Proof.
  split; [reflexivity|]. split; [apply update_plot_no_csv|].
  split; [apply animate_no_csv|].
  unfold main, openPort, bind. destruct port_ok; cbn.
  - set (w0 := push_out _ _).
    pose proof (animate_no_csv startTime ticks w0) as H.
    destruct (animate startTime ticks w0); exact H.
  - reflexivity.
Qed.

(** ** A line with an empty field (C10) *)

Lemma float_of_empty : PyFloat.float_of_str "" = None.
Proof. reflexivity. Qed.

(** C10: a line with exactly one comma and an empty field beside it splits
    into two fields, the empty field does not convert, and the step exits
    the program. *)
Theorem readData_empty_field_is_fatal
    (startTime : PyFloat.float) (l : string) (t : PyFloat.float)
    (csvOut debug : bool) (w : world) :
  PyStr.count "," l = 1 ->
  In "" (fields l) ->
  List.length (fields l) = 2 /\
  PyFloat.float_of_str "" = None /\
  fatal l = true /\
  fst (readData startTime l t csvOut debug w) = Raise SystemExit.
Proof.
  intros Hc Hin.
  assert (E : List.length (fields l) = 2).
  { unfold fields. rewrite PyStrFacts.split_length, PyStrFacts.count_strip.
    - now rewrite Hc.
    - reflexivity. }
  destruct (length_two _ E) as (a & b & Hf).
  split; [exact E|]. split; [exact float_of_empty|].
  rewrite (readData_two _ _ _ _ _ _ _ _ Hf). cbv zeta.
  unfold fatal, accepted. rewrite Hf in *. cbn [List.length Nat.eqb andb].
  destruct Hin as [->|[->|[]]].
  - rewrite float_of_empty. auto.
  - rewrite float_of_empty.
    destruct (PyFloat.float_of_str a); auto.
Qed.

Lemma readData_empty_field_is_fatal_witness :
  fst (readData t_start "," t_later false true initial_world) = Raise SystemExit /\
  fst (readData t_start "22.50," t_later false true initial_world) = Raise SystemExit.
Proof.
  split.
  - apply (readData_empty_field_is_fatal t_start "," t_later false true initial_world).
    + reflexivity.
    + vm_compute. auto.
  - apply (readData_empty_field_is_fatal t_start "22.50," t_later false true initial_world).
    + reflexivity.
    + vm_compute. auto.
Defined.

(** ** Elapsed times along a session (C7) *)

(** A step appends one elapsed time exactly when it reads the clock. *)
Lemma readData_timePoints
    (startTime : PyFloat.float) (tk : tick) (csvOut debug : bool) (w : world) :
  timePoints (snd (readData startTime (line tk) (now tk) csvOut debug w))
    = timePoints w ++
      (if reads_clock tk then [PyStr (timeVal_at startTime (now tk))] else []).
Proof.
  unfold reads_clock.
  destruct (Nat.eqb_spec (List.length (fields (line tk))) 2) as [E|E].
  - destruct (length_two _ E) as (a & b & Hf).
    rewrite (readData_two _ _ _ _ _ _ _ _ Hf). cbv zeta.
    destruct (PyFloat.float_of_str a); [destruct (PyFloat.float_of_str b)|];
      try destruct csvOut; reflexivity.
  - rewrite (readData_skip _ _ _ _ _ _ E). cbn. now rewrite app_nil_r.
Qed.

(** A session appends the elapsed times of the clock reads it got to. *)
Lemma acquire_timePoints
    (startTime : PyFloat.float) (csvOut : bool) (ticks : list tick) (w : world) :
  exists reads rest,
    clock_reads ticks = reads ++ rest /\
    timePoints (snd (acquire startTime csvOut ticks w))
      = timePoints w ++ map (fun t => PyStr (timeVal_at startTime t)) reads.
Proof.
  revert w. induction ticks as [|tk ticks IH]; intros w.
  - exists [], []. split; [reflexivity|]. cbn. now rewrite app_nil_r.
  - cbn [acquire]. unfold bind.
    pose proof (readData_timePoints startTime tk csvOut debug_default w) as Hs.
    set (here := if reads_clock tk then [now tk] else []).
    assert (Hc : clock_reads (tk :: ticks) = here ++ clock_reads ticks).
    { unfold clock_reads, here. cbn [filter].
      destruct (reads_clock tk); reflexivity. }
    assert (Hh : (if reads_clock tk
                  then [PyStr (timeVal_at startTime (now tk))] else [])
                 = map (fun t => PyStr (timeVal_at startTime t)) here).
    { unfold here. destruct (reads_clock tk); reflexivity. }
    rewrite Hh in Hs. rewrite Hc.
    destruct (readData startTime (line tk) (now tk) csvOut debug_default w)
      as [[u|e] w1]; cbn [snd] in Hs.
    + destruct (IH w1) as (reads & rest & Hr & Ht).
      exists (here ++ reads), rest. split.
      * now rewrite Hr, app_assoc.
      * now rewrite Ht, Hs, map_app, app_assoc.
    + exists here, (clock_reads ticks). split; [reflexivity|exact Hs].
Qed.

Lemma StronglySorted_prefix {A : Type} (R : A -> A -> Prop) (l1 l2 : list A) :
  StronglySorted R (l1 ++ l2) -> StronglySorted R l1.
Proof.
  induction l1 as [|a l1 IH]; cbn; intros H; [constructor|].
  inversion H as [|? ? Hs Hf]; subst. constructor.
  - now apply IH.
  - apply Forall_app in Hf. apply Hf.
Qed.

Lemma StronglySorted_map_on {A B : Type}
    (R : A -> A -> Prop) (S : B -> B -> Prop) (P : A -> Prop) (f : A -> B)
    (l : list A) :
  (forall a b, P a -> P b -> R a b -> S (f a) (f b)) ->
  Forall P l -> StronglySorted R l -> StronglySorted S (map f l).
Proof.
  intros Hm. induction l as [|a l IH]; intros HP Hs; cbn; [constructor|].
  inversion HP as [|? ? Pa Pl]; subst. inversion Hs as [|? ? Hs' Hf]; subst.
  constructor; [now apply IH|].
  apply Forall_map. rewrite Forall_forall in *.
  intros b Hb. apply Hm; auto.
Qed.

(** The number the stored elapsed time of a clock read denotes. *)
Lemma elapsed_value_at (startTime t : PyFloat.float) :
  PyFloat.valid startTime = true -> PyFloat.is_finite startTime = true ->
  PyFloat.valid t = true -> PyFloat.is_finite t = true ->
  exists v,
    elapsed_value (PyStr (timeVal_at startTime t)) = Some v /\
    PyFloat.tval_of_float (PyFloat.fsub t startTime) = Some v.
Proof.
  intros Vs Fs Vt Ft. cbn [elapsed_value]. unfold timeVal_at.
  rewrite PyFloatFacts.format_2f_read.
  destruct (PyFloatFacts.fsub_units t startTime Vt Vs Ft Fs) as [Hf _].
  destruct (PyFloat.fsub t startTime) as [s|s| |s m e]; try discriminate;
    eexists; split; reflexivity.
Qed.

(** A later clock read gives an elapsed time that is not smaller. *)
Lemma elapsed_value_mono (startTime t1 t2 : PyFloat.float) :
  PyFloat.valid startTime = true -> PyFloat.is_finite startTime = true ->
  PyFloat.valid t1 = true -> PyFloat.is_finite t1 = true ->
  PyFloat.valid t2 = true -> PyFloat.is_finite t2 = true ->
  PyFloat.fleb t1 t2 = true ->
  exists v1 v2,
    elapsed_value (PyStr (timeVal_at startTime t1)) = Some v1 /\
    elapsed_value (PyStr (timeVal_at startTime t2)) = Some v2 /\
    PyFloat.tval_le v1 v2.
Proof.
  intros Vs Fs V1 F1 V2 F2 Hle.
  apply PyFloatFacts.fleb_units in Hle; try assumption.
  pose proof (PyFloatFacts.fsub_mono t1 t2 startTime V1 V2 Vs F1 F2 Fs Hle) as Hm.
  destruct (PyFloatFacts.fsub_units t1 startTime V1 Vs F1 Fs) as [Hf1 _].
  destruct (PyFloatFacts.fsub_units t2 startTime V2 Vs F2 Fs) as [Hf2 _].
  destruct (PyFloatFacts.tval_of_float_mono _ _ Hf1 Hf2 Hm)
    as (v1 & v2 & E1 & E2 & Hv).
  exists v1, v2. cbn [elapsed_value]. unfold timeVal_at.
  rewrite !PyFloatFacts.format_2f_read. auto.
Qed.

(** C7: when the clock reads of a session are binary64 numbers and each is
    at least every earlier one, the elapsed times appended to [timePoints]
    all denote numbers, and these are non-decreasing in the order of the
    appends. *)
Theorem elapsed_times_nondecreasing
    (startTime : PyFloat.float) (csvOut : bool) (ticks : list tick) :
  PyFloat.valid startTime = true -> PyFloat.is_finite startTime = true ->
  Forall (fun t => PyFloat.valid t = true /\ PyFloat.is_finite t = true)
         (clock_reads ticks) ->
  StronglySorted (fun t1 t2 => PyFloat.fleb t1 t2 = true) (clock_reads ticks) ->
  exists vals,
    map elapsed_value
        (timePoints (snd (acquire startTime csvOut ticks initial_world)))
      = map Some vals /\
    StronglySorted PyFloat.tval_le vals.
Proof.
  intros Vs Fs Hall Hsorted.
  destruct (acquire_timePoints startTime csvOut ticks initial_world)
    as (reads & rest & Hr & Ht).
  rewrite Ht. cbn [timePoints initial_world app]. rewrite Hr in *.
  apply Forall_app in Hall as [Hall _].
  apply StronglySorted_prefix in Hsorted.
  exists (map (fun t => value_or_zero (PyStr (timeVal_at startTime t))) reads).
  split.
  - rewrite !map_map. apply map_ext_in. intros t Hin.
    rewrite Forall_forall in Hall. destruct (Hall t Hin) as [Vt Ft].
    destruct (elapsed_value_at startTime t Vs Fs Vt Ft) as (v & Hv & _).
    unfold value_or_zero. now rewrite Hv.
  - eapply StronglySorted_map_on; [|exact Hall|exact Hsorted].
    intros a b [Va Fa] [Vb Fb] Hab. cbv beta in Hab.
    destruct (elapsed_value_mono startTime a b Vs Fs Va Fa Vb Fb Hab)
      as (v1 & v2 & E1 & E2 & Hv).
    unfold value_or_zero. now rewrite E1, E2.
Qed.

Lemma elapsed_times_nondecreasing_witness :
  exists vals,
    map elapsed_value
        (timePoints
           (snd (acquire t_start false
                   [mkTick "22.50,1.20" t_later; mkTick "" t_start;
                    mkTick "23.10,1.35" t_last]
                   initial_world)))
      = map Some vals /\
    StronglySorted PyFloat.tval_le vals.
Proof.
  apply (elapsed_times_nondecreasing t_start false
           [mkTick "22.50,1.20" t_later; mkTick "" t_start;
            mkTick "23.10,1.35" t_last]).
  - vm_compute. reflexivity.
  - vm_compute. reflexivity.
  - vm_compute. repeat constructor.
  - vm_compute. repeat constructor.
Defined.

(** The live session runs the same steps as [acquire] with logging off. *)
Lemma animate_acquire
    (startTime : PyFloat.float) (ticks : list tick) (w : world) :
  snd (animate startTime ticks w) = snd (acquire startTime false ticks w) /\
  (fst (animate startTime ticks w) = Ok tt <->
   fst (acquire startTime false ticks w) = Ok tt).
Proof.
  revert w. induction ticks as [|tk ticks IH]; intros w.
  - split; reflexivity.
  - cbn [animate acquire]. unfold update_plot, bind, csvOut_default.
    destruct (readData startTime (line tk) (now tk) false debug_default w)
      as [[u|e] w1]; cbn [fst snd].
    + apply IH.
    + split; [reflexivity|]. split; discriminate.
Qed.

(** ** What is stored as elapsed time (C8) *)

(** C8, as stated, fails: after the accepted line ["22.50,1.20"] the stored
    elapsed time is the text ["1.50"], not a float. *)
Lemma stored_elapsed_time_is_text :
  accepted "22.50,1.20" = true /\
  timePoints (snd (readData t_start "22.50,1.20" t_later false true initial_world))
    = [PyStr "1.50"] /\
  ~ exists x : PyFloat.float,
      timePoints (snd (readData t_start "22.50,1.20" t_later false true
                         initial_world))
      = [PyFloat x].
Proof.
  split; [vm_compute; reflexivity|]. split; [vm_compute; reflexivity|].
  intros [x H]. vm_compute in H. discriminate.
Qed.

(** C8 (amended): for every accepted sample, the stored elapsed time is a
    text: the float difference of the current time and the session start
    time, formatted with two decimals. For binary64 clock values the
    difference is the exact one rounded to the nearest float, and the text
    reads back as that float rounded to the nearest hundredth. *)
Theorem elapsed_time_is_formatted_text
    (startTime t : PyFloat.float) (l a b : string) (x y : PyFloat.float)
    (csvOut debug : bool) (w : world) :
  fields l = [a; b] ->
  PyFloat.float_of_str a = Some x ->
  PyFloat.float_of_str b = Some y ->
  exists w',
    readData startTime l t csvOut debug w = (Ok tt, w') /\
    timePoints w'
      = timePoints w ++ [PyStr (PyFloat.format_2f (PyFloat.fsub t startTime))] /\
    (PyFloat.valid t = true -> PyFloat.is_finite t = true ->
     PyFloat.valid startTime = true -> PyFloat.is_finite startTime = true ->
     PyFloat.units (PyFloat.fsub t startTime)
       = PyFloat.odd_ext PyFloat.round_mag
           (PyFloat.units t - PyFloat.units startTime)%Z /\
     (PyFloat.is_finite (PyFloat.fsub t startTime) = true ->
      elapsed_value (PyStr (PyFloat.format_2f (PyFloat.fsub t startTime)))
        = Some (PyFloat.TNum
                  (PyFloat.odd_ext PyFloat.centis_mag
                     (PyFloat.units (PyFloat.fsub t startTime)))))).
Proof.
  intros Hf Ha Hb.
  rewrite (readData_accepted _ _ _ _ _ _ _ _ _ _ Hf Ha Hb). cbv zeta.
  eexists; split; [reflexivity|]. split.
  - destruct csvOut; reflexivity.
  - intros Vt Ft Vs Fs.
    destruct (PyFloatFacts.fsub_units t startTime Vt Vs Ft Fs) as [Hfit Hu].
    split; [exact Hu|]. intros Hfin. cbn [elapsed_value].
    rewrite PyFloatFacts.format_2f_read.
    now apply PyFloatFacts.tval_of_float_units.
Qed.

Lemma elapsed_time_is_formatted_text_witness :
  exists w',
    readData t_start "22.50,1.20" t_later false true initial_world = (Ok tt, w') /\
    timePoints w' = [PyStr "1.50"] /\
    elapsed_value (PyStr "1.50") = Some (PyFloat.TNum 150).
Proof.
  destruct (elapsed_time_is_formatted_text t_start t_later "22.50,1.20"
              "22.50" "1.20"
              (S754_finite false 6333186975989760 (-48))
              (S754_finite false 5404319552844595 (-52))
              false true initial_world)
    as (w' & Hr & Ht & Hv); try (vm_compute; reflexivity).
  exists w'. split; [exact Hr|]. split; [rewrite Ht; vm_compute; reflexivity|].
  destruct Hv as [_ Hv]; try (vm_compute; reflexivity).
Defined.

(** ** The scenario of the specification *)

(** Lines ["22.50,1.20"], ["23.10,1.35"], ["bad,data"]: two samples are
    stored, then the third line ends the program; no third temperature,
    CO2 value or row, but a third elapsed time. *)
Example end_to_end_scenario :
  let r := acquire t_start true
             [mkTick "22.50,1.20" t_later; mkTick "23.10,1.35" t_last;
              mkTick "bad,data" t_last] initial_world in
  fst r = Raise SystemExit /\
  timePoints (snd r) = [PyStr "1.50"; PyStr "2.50"; PyStr "2.50"] /\
  List.length (tempValues (snd r)) = 2 /\
  List.length (co2Values (snd r)) = 2 /\
  log_rows (snd r) = [["1.50"; "22.50"; "1.20"]; ["2.50"; "23.10"; "1.35"]] /\
  stdout (snd r) = [conversion_error].
Proof. vm_compute. repeat split; reflexivity. Qed.

(** A session ends at the first line that exits; later ticks do nothing. *)
Lemma animate_stops
    (startTime : PyFloat.float) (tk : tick) (rest : list tick) (w w' : world)
    (e : exn) :
  readData startTime (line tk) (now tk) false true w = (Raise e, w') ->
  animate startTime (tk :: rest) w = (Raise e, w').
Proof.
  intros H. cbn [animate].
  unfold bind, update_plot, bind, csvOut_default, debug_default.
  now rewrite H.
Qed.

(** * Further properties of the script *)

(** ** Which lines the step acts on *)

Lemma fields_two_iff (l : string) :
  List.length (fields l) = 2 <-> PyStr.count "," l = 1.
Proof.
  unfold fields.
  rewrite PyStrFacts.split_length, PyStrFacts.count_strip by reflexivity.
  lia.
Qed.

(** X1: the step acts on a line exactly when the line holds one comma:
    with any other number of commas the world is left as it is, with one
    comma the clock is read and its elapsed time appended. *)
Theorem one_comma_decides
    (startTime : PyFloat.float) (l : string) (t : PyFloat.float)
    (csvOut debug : bool) (w : world) :
  (PyStr.count "," l <> 1 ->
   readData startTime l t csvOut debug w = (Ok tt, w)) /\
  (PyStr.count "," l = 1 ->
   timePoints (snd (readData startTime l t csvOut debug w))
     = timePoints w ++ [PyStr (timeVal_at startTime t)]).
Proof.
  split; intros H.
  - apply readData_skip. rewrite fields_two_iff. exact H.
  - pose proof (readData_timePoints startTime (mkTick l t) csvOut debug w)
      as Hs.
    unfold reads_clock in Hs. cbn [line now] in Hs.
    apply fields_two_iff in H. now rewrite H in Hs.
Qed.

Lemma one_comma_decides_witness :
  readData t_start "22.50 1.20" t_later true true initial_world
    = (Ok tt, initial_world) /\
  timePoints (snd (readData t_start "x,y" t_later true true initial_world))
    = [PyStr "1.50"].
Proof.
  destruct (one_comma_decides t_start "22.50 1.20" t_later true true
              initial_world) as [H1 _].
  destruct (one_comma_decides t_start "x,y" t_later true true
              initial_world) as [_ H2].
  split.
  - apply H1. vm_compute. discriminate.
  - rewrite H2 by reflexivity. vm_compute. reflexivity.
Defined.

(** ** How the step ends *)

Lemma readData_fst
    (startTime : PyFloat.float) (l : string) (t : PyFloat.float)
    (csvOut debug : bool) (w : world) :
  fst (readData startTime l t csvOut debug w)
    = if fatal l then Raise SystemExit else Ok tt.
Proof.
  unfold fatal.
  destruct (Nat.eqb_spec (List.length (fields l)) 2) as [E|E].
  - destruct (length_two _ E) as (a & b & Hf).
    rewrite (readData_two _ _ _ _ _ _ _ _ Hf). cbv zeta.
    unfold accepted. rewrite Hf.
    destruct (PyFloat.float_of_str a); [destruct (PyFloat.float_of_str b)|];
      reflexivity.
  - now rewrite (readData_skip _ _ _ _ _ _ E).
Qed.

(** X2: the step exits the program exactly on a fatal line (two fields,
    one of which does not convert) and returns on every other line; the
    [ValueError] of a failed conversion never leaves it. *)
Theorem readData_outcome
    (startTime : PyFloat.float) (l : string) (t : PyFloat.float)
    (csvOut debug : bool) (w : world) :
  fst (readData startTime l t csvOut debug w)
    = if fatal l then Raise SystemExit else Ok tt.
Proof. apply readData_fst. Qed.

(** ** The store is append-only *)

Lemma grows_from_refl (w : world) : grows_from w w.
Proof.
  repeat split; exists []; now rewrite app_nil_r.
Qed.

Lemma grows_from_trans (w1 w2 w3 : world) :
  grows_from w1 w2 -> grows_from w2 w3 -> grows_from w1 w3.
Proof.
  intros (Ha & Hb & Hc & Hd & He) (Ha' & Hb' & Hc' & Hd' & He').
  repeat split.
  - destruct Ha as [x Hx], Ha' as [y Hy]. exists (x ++ y).
    now rewrite Hy, Hx, app_assoc.
  - destruct Hb as [x Hx], Hb' as [y Hy]. exists (x ++ y).
    now rewrite Hy, Hx, app_assoc.
  - destruct Hc as [x Hx], Hc' as [y Hy]. exists (x ++ y).
    now rewrite Hy, Hx, app_assoc.
  - destruct Hd as [x Hx], Hd' as [y Hy]. exists (x ++ y).
    now rewrite Hy, Hx, app_assoc.
  - destruct He as [x Hx], He' as [y Hy]. exists (x ++ y).
    now rewrite Hy, Hx, app_assoc.
Qed.

Lemma readData_grows
    (startTime : PyFloat.float) (l : string) (t : PyFloat.float)
    (csvOut debug : bool) (w : world) :
  grows_from w (snd (readData startTime l t csvOut debug w)).
Proof.
  destruct (Nat.eq_dec (List.length (fields l)) 2) as [E|E].
  - destruct (length_two _ E) as (a & b & Hf).
    rewrite (readData_two _ _ _ _ _ _ _ _ Hf). cbv zeta.
    destruct (PyFloat.float_of_str a); [destruct (PyFloat.float_of_str b)|];
      try destruct csvOut; cbn; unfold grows_from, log_rows; cbn;
      repeat split; try (eexists; reflexivity);
      try (exists []; now rewrite app_nil_r).
  - rewrite (readData_skip _ _ _ _ _ _ E). apply grows_from_refl.
Qed.

Lemma acquire_grows
    (startTime : PyFloat.float) (csvOut : bool) (ticks : list tick) (w : world) :
  grows_from w (snd (acquire startTime csvOut ticks w)).
Proof.
  revert w. induction ticks as [|tk ticks IH]; intros w.
  - apply grows_from_refl.
  - cbn [acquire]. unfold bind.
    pose proof (readData_grows startTime (line tk) (now tk) csvOut
                  debug_default w) as Hs.
    destruct (readData startTime (line tk) (now tk) csvOut debug_default w)
      as [[u|e] w1]; cbn [snd] in *.
    + eapply grows_from_trans; [exact Hs | apply IH].
    + exact Hs.
Qed.

(** X3: whatever the lines and however the session ends, the program only
    appends: each of the three lists, the rows of the log file and the
    output at the end of a session start with what they held before it. *)
Theorem session_only_appends
    (startTime : PyFloat.float) (csvOut : bool) (ticks : list tick) (w : world) :
  grows_from w (snd (acquire startTime csvOut ticks w)) /\
  grows_from w (snd (animate startTime ticks w)).
Proof.
  split; [apply acquire_grows|].
  destruct (animate_acquire startTime ticks w) as [-> _].
  apply acquire_grows.
Qed.

(** ** What a session leaves in the store *)

Lemma combine_extra_l {A B : Type} (xs extra : list A) (ys : list B) :
  List.length xs = List.length ys ->
  combine (xs ++ extra) ys = combine xs ys.
Proof.
  revert ys. induction xs as [|x xs IH]; intros [|y ys] H; simpl in *;
    try discriminate.
  - now destruct extra.
  - f_equal. apply IH. now injection H.
Qed.

Lemma sample_of_fatal (startTime : PyFloat.float) (tk : tick) :
  fatal (line tk) = true -> sample_of startTime tk = [].
Proof.
  unfold fatal, sample_of, accepted. intros H.
  apply andb_true_iff in H as [_ H]. apply negb_true_iff in H.
  destruct (fields (line tk)) as [|a [|b [|c r]]]; try reflexivity.
  destruct (PyFloat.float_of_str a); [|reflexivity].
  destruct (PyFloat.float_of_str b); [discriminate|reflexivity].
Qed.

(** One step adds the sample of its tick to the complete samples of the
    store, whichever way it ends. *)
Lemma readData_samples
    (startTime : PyFloat.float) (tk : tick) (csvOut debug : bool) (w : world) :
  equal_lengths w ->
  samples (snd (readData startTime (line tk) (now tk) csvOut debug w))
    = samples w ++ sample_of startTime tk.
Proof.
  intros Hw. unfold sample_of.
  destruct (Nat.eq_dec (List.length (fields (line tk))) 2) as [E|E].
  - destruct (length_two _ E) as (a & b & Hf). rewrite Hf.
    rewrite (readData_two _ _ _ _ _ _ _ _ Hf). cbv zeta.
    destruct Hw as [H1 H2].
    destruct (PyFloat.float_of_str a) as [x|];
      [destruct (PyFloat.float_of_str b) as [y|]|]; cbn [snd].
    + replace (samples (if csvOut then push_row _ _ else _))
        with (samples (push_co2 (PyFloat y) (push_temp (PyFloat x)
                (push_time (PyStr (timeVal_at startTime (now tk))) w))))
        by (destruct csvOut; reflexivity).
      apply samples_push. now split.
    + rewrite app_nil_r. unfold samples. cbn.
      rewrite combine_app_same by assumption. cbn.
      apply combine_extra_l.
      rewrite length_combine, <- H1, Nat.min_id. congruence.
    + rewrite app_nil_r. unfold samples. cbn.
      now rewrite combine_extra_l by assumption.
  - rewrite (readData_skip _ _ _ _ _ _ E). cbn [snd].
    destruct (fields (line tk)) as [|a [|b [|c r]]];
      try (now rewrite app_nil_r). now elim E.
Qed.

Lemma samples_of_cons (startTime : PyFloat.float) (tk : tick) (ticks : list tick) :
  samples_of startTime (tk :: ticks)
    = sample_of startTime tk ++ samples_of startTime ticks.
Proof. reflexivity. Qed.

Lemma acquire_samples
    (startTime : PyFloat.float) (csvOut : bool) (ticks : list tick) (w : world) :
  equal_lengths w ->
  samples (snd (acquire startTime csvOut ticks w))
    = samples w ++ samples_of startTime (before_fatal ticks).
Proof.
  revert w. induction ticks as [|tk ticks IH]; intros w Hw.
  - cbn. now rewrite app_nil_r.
  - cbn [acquire before_fatal]. unfold bind.
    pose proof (readData_samples startTime tk csvOut debug_default w Hw) as Hs.
    pose proof (readData_lengths startTime (line tk) (now tk) csvOut
                  debug_default w Hw) as Hl.
    pose proof (readData_fst startTime (line tk) (now tk) csvOut
                  debug_default w) as Hf.
    destruct (readData startTime (line tk) (now tk) csvOut debug_default w)
      as [[u|e] w1]; cbn [fst snd] in *.
    + destruct (fatal (line tk)); [discriminate|].
      rewrite (IH w1 Hl), Hs, samples_of_cons. now rewrite app_assoc.
    + destruct (fatal (line tk)) eqn:Ef; [|discriminate].
      rewrite Hs, (sample_of_fatal _ _ Ef). reflexivity.
Qed.

(** X4: at the end of a session, however it ends, the complete samples of
    the store are those of the accepted lines that came before the first
    fatal line, one per line and in tick order. *)
Theorem session_samples
    (startTime : PyFloat.float) (csvOut : bool) (ticks : list tick) :
  samples (snd (acquire startTime csvOut ticks initial_world))
    = samples_of startTime (before_fatal ticks) /\
  samples (snd (animate startTime ticks initial_world))
    = samples_of startTime (before_fatal ticks).
Proof.
  assert (H0 : equal_lengths initial_world) by (split; reflexivity).
  split.
  - now rewrite acquire_samples.
  - destruct (animate_acquire startTime ticks initial_world) as [-> _].
    now rewrite acquire_samples.
Qed.

(** ** What a logged session leaves in the file *)

Lemma rows_of_one (startTime : PyFloat.float) (tk : tick) :
  rows_of startTime [tk]
    = if accepted (line tk) then [row_of startTime tk] else [].
Proof. unfold rows_of. cbn. now destruct (accepted (line tk)). Qed.

(** One logged step adds the row of its tick when the line is accepted and
    leaves the file alone otherwise; the file never exists without rows. *)
Lemma readData_rows
    (startTime : PyFloat.float) (tk : tick) (debug : bool) (w : world) :
  csv_file w <> Some [] ->
  log_rows (snd (readData startTime (line tk) (now tk) true debug w))
    = log_rows w ++ rows_of startTime [tk] /\
  csv_file (snd (readData startTime (line tk) (now tk) true debug w))
    <> Some [].
Proof.
  intros Hne. rewrite rows_of_one. unfold accepted, row_of.
  destruct (Nat.eq_dec (List.length (fields (line tk))) 2) as [E|E].
  - destruct (length_two _ E) as (a & b & Hf). rewrite Hf.
    rewrite (readData_two _ _ _ _ _ _ _ _ Hf). cbv zeta.
    destruct (PyFloat.float_of_str a) as [x|];
      [destruct (PyFloat.float_of_str b) as [y|]|]; cbn [snd].
    + split; [reflexivity|]. cbn. intros H. injection H as H.
      now apply app_eq_nil in H as [_ H].
    + split; [now rewrite app_nil_r | exact Hne].
    + split; [now rewrite app_nil_r | exact Hne].
  - rewrite (readData_skip _ _ _ _ _ _ E). cbn [snd].
    destruct (fields (line tk)) as [|a [|b [|c r]]];
      try (split; [now rewrite app_nil_r | exact Hne]). now elim E.
Qed.

Lemma acquire_rows
    (startTime : PyFloat.float) (ticks : list tick) (w : world) :
  csv_file w <> Some [] ->
  log_rows (snd (acquire startTime true ticks w))
    = log_rows w ++ rows_of startTime (before_fatal ticks) /\
  csv_file (snd (acquire startTime true ticks w)) <> Some [].
Proof.
  revert w. induction ticks as [|tk ticks IH]; intros w Hne.
  - cbn. now rewrite app_nil_r.
  - cbn [acquire before_fatal]. unfold bind.
    destruct (readData_rows startTime tk debug_default w Hne) as [Hr Hn].
    pose proof (readData_fst startTime (line tk) (now tk) true
                  debug_default w) as Hf.
    destruct (readData startTime (line tk) (now tk) true debug_default w)
      as [[u|e] w1]; cbn [fst snd] in *.
    + destruct (fatal (line tk)); [discriminate|].
      destruct (IH w1 Hn) as [Hr' Hn']. split; [|exact Hn'].
      rewrite Hr', Hr, (rows_of_cons startTime tk (before_fatal ticks)).
      now rewrite app_assoc.
    + destruct (fatal (line tk)) eqn:Ef; [|discriminate].
      split; [|exact Hn]. rewrite Hr, rows_of_one.
      unfold fatal in Ef. apply andb_true_iff in Ef as [_ Ef].
      apply negb_true_iff in Ef. now rewrite Ef.
Qed.

(** X5: with logging enabled, at the end of a session, however it ends,
    the log file holds one row per accepted line before the first fatal
    line, in tick order, and no row for the fatal line; the file exists
    exactly when there is such a row. *)
Theorem logged_session_rows
    (startTime : PyFloat.float) (ticks : list tick) :
  log_rows (snd (acquire startTime true ticks initial_world))
    = rows_of startTime (before_fatal ticks) /\
  (csv_file (snd (acquire startTime true ticks initial_world)) = None <->
   rows_of startTime (before_fatal ticks) = []).
Proof.
  assert (H0 : csv_file initial_world <> Some []) by discriminate.
  destruct (acquire_rows startTime ticks initial_world H0) as [Hr Hn].
  cbn [log_rows initial_world csv_file app] in Hr.
  split; [exact Hr|]. rewrite <- Hr. unfold log_rows.
  destruct (csv_file (snd (acquire startTime true ticks initial_world)))
    as [rows|].
  - split; [discriminate|]. intros ->. now elim Hn.
  - split; reflexivity.
Qed.

(** ** The lists behind the final figure *)

Lemma combine_fst {A B : Type} (xs : list A) (ys : list B) :
  List.length xs = List.length ys -> map fst (combine xs ys) = xs.
Proof.
  revert ys. induction xs as [|x xs IH]; intros [|y ys] H; simpl in *;
    try discriminate; [reflexivity|].
  f_equal. apply IH. now injection H.
Qed.

Lemma combine_snd {A B : Type} (xs : list A) (ys : list B) :
  List.length xs = List.length ys -> map snd (combine xs ys) = ys.
Proof.
  revert ys. induction xs as [|x xs IH]; intros [|y ys] H; simpl in *;
    try discriminate; [reflexivity|].
  f_equal. apply IH. now injection H.
Qed.

Lemma samples_unzip (w : world) :
  equal_lengths w ->
  timePoints w = map (fun s => fst (fst s)) (samples w) /\
  tempValues w = map (fun s => snd (fst s)) (samples w) /\
  co2Values w = map snd (samples w).
Proof.
  intros [H1 H2]. unfold samples.
  assert (Hc : List.length (combine (timePoints w) (tempValues w))
               = List.length (co2Values w)).
  { rewrite length_combine, <- H1, Nat.min_id. congruence. }
  rewrite <- !(map_map fst), combine_fst by assumption.
  rewrite combine_fst, combine_snd, combine_snd by assumption.
  auto.
Qed.

Lemma acquire_ok_no_fatal
    (startTime : PyFloat.float) (csvOut : bool) (ticks : list tick) (w : world) :
  fst (acquire startTime csvOut ticks w) = Ok tt -> before_fatal ticks = ticks.
Proof.
  revert w. induction ticks as [|tk ticks IH]; intros w H; [reflexivity|].
  cbn [acquire before_fatal] in *. unfold bind in H.
  pose proof (readData_fst startTime (line tk) (now tk) csvOut
                debug_default w) as Hf.
  destruct (readData startTime (line tk) (now tk) csvOut debug_default w)
    as [[u|e] w1]; cbn [fst] in *; [|discriminate].
  destruct (fatal (line tk)); [discriminate|].
  f_equal. eapply IH. exact H.
Qed.

Lemma animate_lists
    (startTime : PyFloat.float) (ticks : list tick) (w' : world) :
  animate startTime ticks initial_world = (Ok tt, w') ->
  timePoints w' = map (fun s => fst (fst s)) (samples_of startTime ticks) /\
  tempValues w' = map (fun s => snd (fst s)) (samples_of startTime ticks) /\
  co2Values w' = map snd (samples_of startTime ticks) /\
  equal_lengths w'.
Proof.
  intros H.
  assert (H0 : equal_lengths initial_world) by (split; reflexivity).
  destruct (animate_acquire startTime ticks initial_world) as [Hw Hok].
  rewrite H in Hw, Hok. cbn [fst snd] in Hw, Hok.
  assert (Ha : fst (acquire startTime false ticks initial_world) = Ok tt)
    by now apply Hok.
  assert (Hacq : acquire startTime false ticks initial_world = (Ok tt, w')).
  { destruct (acquire startTime false ticks initial_world) as [r w1].
    cbn [fst snd] in *. now subst. }
  pose proof (acquire_equal_lengths startTime false ticks initial_world w'
                H0 Hacq) as Hl.
  pose proof (acquire_samples startTime false ticks initial_world H0) as Hs.
  rewrite Hacq in Hs. cbn [snd] in Hs.
  rewrite (acquire_ok_no_fatal startTime false ticks initial_world Ha) in Hs.
  change (samples initial_world) with (@nil (pyval * pyval * pyval)) in Hs.
  cbn [app] in Hs. rewrite <- Hs.
  destruct (samples_unzip w' Hl) as (A & B & C). auto.
Qed.

(** X6: when the live session ends by the window being closed, the lists
    the final figure is drawn from hold the whole history: one element per
    accepted line, in tick order, the elapsed-time texts in [timePoints]
    and the converted fields in [tempValues] and [co2Values], so that the
    x and y of both curves have the same length. *)
Theorem final_figure_history
    (startTime : PyFloat.float) (ticks : list tick) (w' : world) :
  animate startTime ticks initial_world = (Ok tt, w') ->
  timePoints w' = map (fun s => fst (fst s)) (samples_of startTime ticks) /\
  tempValues w' = map (fun s => snd (fst s)) (samples_of startTime ticks) /\
  co2Values w' = map snd (samples_of startTime ticks) /\
  equal_lengths w'.
Proof. apply animate_lists. Qed.

Lemma final_figure_history_witness :
  exists w',
    animate t_start [mkTick "22.50,1.20" t_later; mkTick "1,2,3" t_later;
                     mkTick "23.10,1.35" t_last] initial_world = (Ok tt, w') /\
    timePoints w' = [PyStr "1.50"; PyStr "2.50"] /\
    List.length (tempValues w') = 2 /\ List.length (co2Values w') = 2.
Proof.
  eexists. split; [vm_compute; reflexivity|].
  destruct (final_figure_history t_start
              [mkTick "22.50,1.20" t_later; mkTick "1,2,3" t_later;
               mkTick "23.10,1.35" t_last] _ eq_refl)
    as (A & B & C & _).
  vm_compute. auto.
Defined.

(** ** What the lists hold *)

Lemma readData_well_typed
    (startTime : PyFloat.float) (l : string) (t : PyFloat.float)
    (csvOut debug : bool) (w : world) :
  well_typed w -> well_typed (snd (readData startTime l t csvOut debug w)).
Proof.
  intros (Ht & Hx & Hy).
  destruct (Nat.eq_dec (List.length (fields l)) 2) as [E|E].
  - destruct (length_two _ E) as (a & b & Hf).
    rewrite (readData_two _ _ _ _ _ _ _ _ Hf). cbv zeta.
    destruct (PyFloat.float_of_str a); [destruct (PyFloat.float_of_str b)|];
      try destruct csvOut; cbn; unfold well_typed; cbn;
      repeat split; try assumption;
      apply Forall_app; split; try assumption; repeat constructor.
  - rewrite (readData_skip _ _ _ _ _ _ E). now repeat split.
Qed.

Lemma acquire_well_typed
    (startTime : PyFloat.float) (csvOut : bool) (ticks : list tick) (w : world) :
  well_typed w -> well_typed (snd (acquire startTime csvOut ticks w)).
Proof.
  revert w. induction ticks as [|tk ticks IH]; intros w Hw; [exact Hw|].
  cbn [acquire]. unfold bind.
  pose proof (readData_well_typed startTime (line tk) (now tk) csvOut
                debug_default w Hw) as Hs.
  destruct (readData startTime (line tk) (now tk) csvOut debug_default w)
    as [[u|e] w1]; cbn [snd] in *; [now apply IH | exact Hs].
Qed.

Lemma initial_well_typed : well_typed initial_world.
Proof. repeat split; constructor. Qed.

(** X7: at every point of a session, however it ends, [timePoints] holds
    only texts and [tempValues] and [co2Values] hold only floats. *)
Theorem session_well_typed
    (startTime : PyFloat.float) (csvOut : bool) (ticks : list tick) :
  well_typed (snd (acquire startTime csvOut ticks initial_world)) /\
  well_typed (snd (animate startTime ticks initial_world)).
Proof.
  split.
  - apply acquire_well_typed, initial_well_typed.
  - destruct (animate_acquire startTime ticks initial_world) as [-> _].
    apply acquire_well_typed, initial_well_typed.
Qed.

(** ** The text box *)

Lemma item_last_app (xs : list pyval) (v : pyval) :
  item_last (xs ++ [v]) = v.
Proof. unfold item_last. apply last_last. Qed.

Lemma truthy_app {A : Type} (xs : list A) (v : A) :
  PyList.truthy (xs ++ [v]) = true.
Proof. now destruct xs. Qed.

(** X8: after an accepted line the text box shows the elapsed time of its
    own clock read and the two values of that line, each with two
    decimals, whatever the store held before. *)
Theorem text_box_after_accepted
    (startTime t t' : PyFloat.float) (l a b : string) (x y : PyFloat.float)
    (csvOut debug : bool) (w : world) :
  fields l = [a; b] ->
  PyFloat.float_of_str a = Some x ->
  PyFloat.float_of_str b = Some y ->
  text_box_of startTime t' (snd (readData startTime l t csvOut debug w))
    = Text (textstr (PyFloat.format_2f (PyFloat.fsub t' startTime))
                    (PyFloat.format_2f x) (PyFloat.format_2f y)).
Proof.
  intros Hf Ha Hb.
  rewrite (readData_accepted _ _ _ _ _ _ _ _ _ _ Hf Ha Hb). cbv zeta.
  cbn [snd]. unfold text_box_of.
  replace (tempValues (if csvOut then push_row _ _ else _))
    with (tempValues w ++ [PyFloat x]) by (destruct csvOut; reflexivity).
  replace (co2Values (if csvOut then push_row _ _ else _))
    with (co2Values w ++ [PyFloat y]) by (destruct csvOut; reflexivity).
  now rewrite !truthy_app, !item_last_app.
Qed.

Lemma text_box_after_accepted_witness :
  text_box_of t_start t_last
    (snd (readData t_start "22.50,1.20" t_later false true initial_world))
  = Text (textstr "2.50" "22.50" "1.20").
Proof.
  rewrite (text_box_after_accepted t_start t_later t_last "22.50,1.20"
             "22.50" "1.20"
             (S754_finite false 6333186975989760 (-48))
             (S754_finite false 5404319552844595 (-52))
             false true initial_world);
    vm_compute; reflexivity.
Defined.

Lemma last_number (xs : list pyval) :
  Forall (fun v => is_number v = true) xs -> xs <> [] ->
  exists x, item_last xs = PyFloat x.
Proof.
  intros Hall Hne. destruct (exists_last Hne) as (ys & v & ->).
  rewrite item_last_app. apply Forall_app in Hall as [_ Hv].
  inversion Hv as [|? ? Hn _]; subst.
  destruct v as [s|x]; [discriminate|]. now exists x.
Qed.

Lemma text_box_well_typed (startTime t' : PyFloat.float) (w : world) :
  well_typed w -> text_box_of startTime t' w <> TextTypeError.
Proof.
  intros (_ & Hx & Hy). unfold text_box_of.
  destruct (tempValues w) as [|v vs] eqn:Ev; [discriminate|].
  destruct (co2Values w) as [|c cs] eqn:Ec; [discriminate|].
  cbn [PyList.truthy andb].
  destruct (last_number (v :: vs) Hx ltac:(discriminate)) as [x ->].
  destruct (last_number (c :: cs) Hy ltac:(discriminate)) as [y ->].
  discriminate.
Qed.

(** X9: in no state a session can reach does the text box fail with a
    [TypeError]: ['%.2f'] is only ever applied to the floats of the two
    value lists. *)
Theorem text_box_never_fails
    (startTime t' : PyFloat.float) (ticks : list tick) :
  text_box_of startTime t' (snd (animate startTime ticks initial_world))
    <> TextTypeError.
Proof.
  apply text_box_well_typed.
  destruct (animate_acquire startTime ticks initial_world) as [-> _].
  apply acquire_well_typed, initial_well_typed.
Qed.

(** X10: while the session runs, the text box is absent exactly as long as
    no line has been accepted. *)
Theorem text_box_absent_until_first_sample
    (startTime t' : PyFloat.float) (ticks : list tick) (w' : world) :
  animate startTime ticks initial_world = (Ok tt, w') ->
  (text_box_of startTime t' w' = NoText <-> samples_of startTime ticks = []).
Proof.
  intros H. destruct (animate_lists startTime ticks w' H) as (_ & Hx & Hy & _).
  unfold text_box_of. rewrite Hx, Hy.
  destruct (samples_of startTime ticks) as [|s ss]; cbn [map PyList.truthy andb].
  - split; reflexivity.
  - split; [|discriminate].
    destruct (percent_2f _); [destruct (percent_2f _)|]; discriminate.
Qed.

Lemma text_box_absent_until_first_sample_witness :
  text_box_of t_start t_last
    (snd (animate t_start [mkTick "" t_later; mkTick "1,2,3" t_later]
            initial_world))
  = NoText.
Proof.
  apply (text_box_absent_until_first_sample t_start t_last
           [mkTick "" t_later; mkTick "1,2,3" t_later]).
  - vm_compute. reflexivity.
  - vm_compute. reflexivity.
Defined.

(** ** What a redraw plots *)

(** X11: in a running session every redraw gives each [plot] call an x
    and a y of the same length, at most 15, and both axes the same x. *)
Theorem frame_series_match
    (startTime : PyFloat.float) (l : string) (t : PyFloat.float)
    (w w' : world) (fr : frame) :
  equal_lengths w ->
  update_plot startTime l t w = (Ok fr, w') ->
  List.length (ax1_x fr) = List.length (ax1_y fr) /\
  List.length (ax2_x fr) = List.length (ax2_y fr) /\
  ax1_x fr = ax2_x fr /\
  List.length (ax1_x fr) <= 15.
Proof.
  intros Hw H.
  destruct (update_plot_frame startTime l t w w' fr H)
    as (Hr & -> & -> & -> & ->).
  pose proof (readData_lengths startTime l t false true w Hw) as Hl.
  rewrite Hr in Hl. destruct Hl as [H1 H2].
  rewrite !last15_skipn, !length_skipn. repeat split; lia.
Qed.

Lemma frame_series_match_witness :
  exists fr w',
    update_plot t_start "22.50,1.20" t_later initial_world = (Ok fr, w') /\
    List.length (ax1_x fr) = List.length (ax1_y fr) /\
    List.length (ax2_x fr) = List.length (ax2_y fr).
Proof.
  do 2 eexists. split; [vm_compute; reflexivity|].
  assert (H0 : equal_lengths initial_world) by (split; reflexivity).
  destruct (frame_series_match t_start "22.50,1.20" t_later initial_world
              _ _ H0 eq_refl) as (A & B & _).
  vm_compute. auto.
Defined.

Lemma tl_skipn {A : Type} (k : nat) (xs : list A) :
  tl (skipn k xs) = skipn (S k) xs.
Proof.
  revert xs. induction k as [|k IH]; intros [|x xs]; try reflexivity.
  cbn [skipn]. apply IH.
Qed.

(** X12: the window rolls: appending one element to a list of fewer than
    15 keeps the whole list in the window, and appending to a longer list
    drops the oldest element of the window and puts the new one last. *)
Theorem last15_rolls (xs : list pyval) (v : pyval) :
  last15 (xs ++ [v])
    = if (List.length xs <? 15)%nat then xs ++ [v] else tl (last15 xs) ++ [v].
Proof.
  rewrite !last15_skipn, length_app. cbn [List.length].
  destruct (Nat.ltb_spec (List.length xs) 15) as [H|H].
  - replace (List.length xs + 1 - 15) with 0 by lia. reflexivity.
  - rewrite tl_skipn.
    replace (List.length xs + 1 - 15) with (S (List.length xs - 15)) by lia.
    rewrite skipn_app.
    replace (S (List.length xs - 15) - List.length xs) with 0 by lia.
    reflexivity.
Qed.

(** ** What the program prints and how it ends *)

Lemma readData_stdout
    (startTime : PyFloat.float) (l : string) (t : PyFloat.float)
    (csvOut debug : bool) (w : world) :
  stdout (snd (readData startTime l t csvOut debug w))
    = stdout w ++ (if fatal l then [conversion_error] else []).
Proof.
  unfold fatal.
  destruct (Nat.eqb_spec (List.length (fields l)) 2) as [E|E].
  - destruct (length_two _ E) as (a & b & Hf).
    rewrite (readData_two _ _ _ _ _ _ _ _ Hf). cbv zeta.
    unfold accepted. rewrite Hf.
    destruct (PyFloat.float_of_str a); [destruct (PyFloat.float_of_str b)|];
      try destruct csvOut; cbn; try reflexivity; now rewrite app_nil_r.
  - rewrite (readData_skip _ _ _ _ _ _ E). cbn. now rewrite app_nil_r.
Qed.

Lemma animate_outcome
    (startTime : PyFloat.float) (ticks : list tick) (w : world) :
  fst (animate startTime ticks w)
    = (if has_fatal ticks then Raise SystemExit else Ok tt) /\
  stdout (snd (animate startTime ticks w))
    = stdout w ++ (if has_fatal ticks then [conversion_error] else []).
Proof.
  revert w. induction ticks as [|tk ticks IH]; intros w.
  - cbn. now rewrite app_nil_r.
  - cbn [animate has_fatal existsb]. unfold bind, update_plot, bind.
    pose proof (readData_fst startTime (line tk) (now tk) csvOut_default
                  debug_default w) as Hf.
    pose proof (readData_stdout startTime (line tk) (now tk) csvOut_default
                  debug_default w) as Hs.
    destruct (readData startTime (line tk) (now tk) csvOut_default
                debug_default w) as [[u|e] w1]; cbn [fst snd] in *.
    + destruct (fatal (line tk)); [discriminate|]. cbn [orb].
      rewrite app_nil_r in Hs. rewrite <- Hs. apply IH.
    + destruct (fatal (line tk)); [|discriminate]. cbn [orb].
      split; [exact Hf | exact Hs].
Qed.

(** X13: the whole program. When the port does not open, it prints that
    and exits with the lists empty and no file, whatever the port would
    have sent. When it opens, the program prints that the port is open,
    runs until the first fatal line, if any, and then prints the
    conversion error and exits; nothing else is ever printed. *)
Theorem main_outcome
    (port_ok : bool) (startTime : PyFloat.float) (ticks : list tick) :
  let r := main port_ok startTime ticks initial_world in
  if port_ok then
    fst r = (if has_fatal ticks then Raise SystemExit else Ok tt) /\
    stdout (snd r)
      = "Serial port is open"
          :: (if has_fatal ticks then [conversion_error] else [])
  else
    r = (Raise SystemExit,
         push_out "Serial port is not open -- Exiting program" initial_world).
Proof.
  cbv zeta. unfold main, openPort, bind. destruct port_ok; cbn.
  - set (w0 := push_out _ _).
    destruct (animate_outcome startTime ticks w0) as [Hf Hs].
    destruct (animate startTime ticks w0) as [r w1]. cbn [fst snd] in *.
    split; [exact Hf | exact Hs].
  - reflexivity.
Qed.

(** ** Elapsed time is not negative *)

Lemma fsub_self_units (t : PyFloat.float) :
  PyFloat.valid t = true -> PyFloat.is_finite t = true ->
  PyFloat.units (PyFloat.fsub t t) = 0%Z.
Proof.
  intros V F. destruct (PyFloatFacts.fsub_units t t V V F F) as [_ ->].
  rewrite Z.sub_diag. change (PyFloat.odd_ext PyFloat.round_mag 0)
    with (PyFloat.round_mag 0).
  apply PyFloatFacts.round_mag_zero.
Qed.

(** X14: when the clock read of a step is not before [startTime], the
    elapsed time it stores denotes a number that is not negative. *)
Theorem elapsed_time_nonnegative (startTime t : PyFloat.float) :
  PyFloat.valid startTime = true -> PyFloat.is_finite startTime = true ->
  PyFloat.valid t = true -> PyFloat.is_finite t = true ->
  PyFloat.fleb startTime t = true ->
  exists v,
    elapsed_value (PyStr (timeVal_at startTime t)) = Some v /\
    PyFloat.tval_le (PyFloat.TNum 0) v.
Proof.
  intros Vs Fs Vt Ft Hle.
  apply PyFloatFacts.fleb_units in Hle; try assumption.
  pose proof (PyFloatFacts.fsub_mono startTime t startTime Vs Vt Vs Fs Ft Fs Hle)
    as Hm.
  rewrite (fsub_self_units startTime Vs Fs) in Hm.
  destruct (PyFloatFacts.fsub_units t startTime Vt Vs Ft Fs) as [Hfit _].
  cbn [elapsed_value]. unfold timeVal_at.
  rewrite PyFloatFacts.format_2f_read.
  assert (Hi : (0 < PyFloat.inf_units)%Z) by (apply PyFloatFacts.pow2_pos; lia).
  destruct (PyFloat.fsub t startTime) as [s|s| |s m e]; try discriminate;
    cbn [PyFloat.tval_of_float PyFloat.units] in *.
  - eexists. split; [reflexivity|]. cbn. lia.
  - destruct s; cbn [cond_Zopp] in Hm; [lia|].
    eexists. split; [reflexivity|]. exact I.
  - assert (0 < 2 ^ (e + 1074))%Z.
    { apply PyFloatFacts.pow2_pos. cbn [PyFloat.fits] in Hfit. lia. }
    destruct s; cbn [cond_Zopp] in Hm; [lia|].
    eexists. split; [reflexivity|]. cbn.
    apply PyFloatFacts.centis_abs_nonneg.
Qed.

Lemma elapsed_time_nonnegative_witness :
  exists v,
    elapsed_value (PyStr (timeVal_at t_start t_later)) = Some v /\
    PyFloat.tval_le (PyFloat.TNum 0) v.
Proof.
  apply (elapsed_time_nonnegative t_start t_later); vm_compute; reflexivity.
Defined.

(** ** The fields of a line *)

Lemma join_split (sep : ascii) (s : string) :
  join sep (PyStr.split sep s) = s.
Proof.
  induction s as [|c r IH]; [reflexivity|]. cbn [PyStr.split].
  pose proof (PyStrFacts.split_truthy sep r) as Hne.
  destruct (Ascii.eqb_spec c sep) as [->|Hc].
  - destruct (PyStr.split sep r) as [|f fs]; [discriminate|].
    change (join sep ("" :: f :: fs)) with (String sep (join sep (f :: fs))).
    now rewrite IH.
  - destruct (PyStr.split sep r) as [|f fs]; [discriminate|].
    destruct fs as [|g gs].
    + cbn in *. now rewrite IH.
    + change (join sep (String c f :: g :: gs))
        with (String c (f ++ String sep (join sep (g :: gs)))).
      change (join sep (f :: g :: gs))
        with (f ++ String sep (join sep (g :: gs)))%string in IH.
      now rewrite IH.
Qed.

Lemma split_no_sep (sep : ascii) (s : string) :
  Forall (fun f => PyStr.count sep f = 0) (PyStr.split sep s).
Proof.
  induction s as [|c r IH]; [repeat constructor|]. cbn [PyStr.split].
  destruct (Ascii.eqb c sep) eqn:Ec.
  - constructor; [reflexivity | exact IH].
  - destruct (PyStr.split sep r) as [|f fs]; [repeat constructor; cbn; now rewrite Ec|].
    inversion IH as [|? ? Hf Hfs]; subst. constructor; [|exact Hfs].
    cbn. now rewrite Ec, Hf.
Qed.

(** X15: the fields of a line are the pieces between its commas: no field
    holds a comma, and the fields joined by commas give back the line
    without its leading and trailing white space. In particular the two
    fields of a line that is acted on, with a comma between them, are that
    stripped line. *)
Theorem fields_rebuild_line (l : string) :
  Forall (fun f => PyStr.count "," f = 0) (fields l) /\
  join "," (fields l) = PyStr.strip l /\
  (forall a b, fields l = [a; b] -> (a ++ "," ++ b)%string = PyStr.strip l).
Proof.
  unfold fields. split; [apply split_no_sep|].
  split; [apply join_split|].
  intros a b H. rewrite <- (join_split "," (PyStr.strip l)), H. reflexivity.
Qed.

Lemma fields_rebuild_line_witness :
  fields "  22.50,1.20 " = ["22.50"; "1.20"] /\
  ("22.50" ++ "," ++ "1.20")%string = PyStr.strip "  22.50,1.20 ".
Proof.
  split; [vm_compute; reflexivity|].
  destruct (fields_rebuild_line "  22.50,1.20 ") as (_ & _ & H).
  apply H. vm_compute. reflexivity.
Defined.

(** ** The name of the log file *)

Lemma digit_char_inj (a b : Z) :
  (0 <= a <= 9)%Z -> (0 <= b <= 9)%Z ->
  PyFloat.digit_char a = PyFloat.digit_char b -> a = b.
Proof.
  intros Ha Hb H.
  pose proof (PyFloatFacts.digit_val_char a Ha) as Ea.
  pose proof (PyFloatFacts.digit_val_char b Hb) as Eb.
  rewrite H in Ea. congruence.
Qed.

Lemma two_digits_chars (a b : Z) :
  (0 <= a < 100)%Z -> (0 <= b < 100)%Z ->
  PyFloat.digit_char (a / 10) = PyFloat.digit_char (b / 10) ->
  PyFloat.digit_char (a mod 10) = PyFloat.digit_char (b mod 10) ->
  a = b.
Proof.
  intros Ha Hb H1 H2.
  apply digit_char_inj in H1; [|clear - Ha; Z.div_mod_to_equations; lia
                                |clear - Hb; Z.div_mod_to_equations; lia].
  apply digit_char_inj in H2; [|clear - Ha; Z.div_mod_to_equations; lia
                                |clear - Hb; Z.div_mod_to_equations; lia].
  clear - H1 H2 Ha Hb. Z.div_mod_to_equations. lia.
Qed.

(** X16: two starts of the program get the same log file name exactly when
    they agree on month, day, the last two digits of the year, hour,
    minute and second; such starts append to the same file. *)
Theorem FILENAME_same_iff (t1 t2 : struct_time) :
  time_ok t1 -> time_ok t2 ->
  (FILENAME t1 = FILENAME t2 <->
   tm_mon t1 = tm_mon t2 /\ tm_mday t1 = tm_mday t2 /\
   (tm_year t1 mod 100 = tm_year t2 mod 100)%Z /\
   tm_hour t1 = tm_hour t2 /\ tm_min t1 = tm_min t2 /\
   tm_sec t1 = tm_sec t2).
Proof.
  intros (A1 & B1 & C1 & D1 & E1) (A2 & B2 & C2 & D2 & E2).
  pose proof (Z.mod_pos_bound (tm_year t1) 100 ltac:(lia)) as Y1.
  pose proof (Z.mod_pos_bound (tm_year t2) 100 ltac:(lia)) as Y2.
  unfold FILENAME. split.
  - unfold two_digits. cbn [append]. intros H.
    injection H as M1 M2 D1' D2' Y1' Y2' H1 H2 I1 I2 S1 S2.
    repeat split; apply two_digits_chars; assumption || lia.
  - intros (-> & -> & -> & -> & -> & ->). reflexivity.
Qed.

Lemma FILENAME_same_iff_witness :
  FILENAME (mkTime 2024 3 7 9 5 1) = "030724_090501.csv" /\
  FILENAME (mkTime 2024 3 7 9 5 1) = FILENAME (mkTime 1924 3 7 9 5 1) /\
  FILENAME (mkTime 2024 3 7 9 5 1) <> FILENAME (mkTime 2024 3 7 9 5 2).
Proof.
  split; [reflexivity|].
  assert (T1 : time_ok (mkTime 2024 3 7 9 5 1)) by (unfold time_ok; cbn; lia).
  assert (T2 : time_ok (mkTime 1924 3 7 9 5 1)) by (unfold time_ok; cbn; lia).
  assert (T3 : time_ok (mkTime 2024 3 7 9 5 2)) by (unfold time_ok; cbn; lia).
  split.
  - apply (FILENAME_same_iff _ _ T1 T2). cbn. repeat split.
  - intros H. apply (FILENAME_same_iff _ _ T1 T3) in H.
    cbn in H. destruct H as (_ & _ & _ & _ & _ & H). discriminate.
Defined.

(** ** A field that ends in a separator character *)

(** On the line ["1.5<FS>,2.5"] the split gives the fields ["1.5<FS>"] and
    ["2.5"]; [float] does not skip the separator, so the first conversion
    fails: the program prints the error and exits with one elapsed time
    and no value appended. *)
Example separator_line_is_fatal :
  fields line_with_separator
    = [String "1" (String "." (String "5"
         (String (ascii_of_nat 28) EmptyString))); "2.5"] /\
  fatal line_with_separator = true /\
  readData t_start line_with_separator t_later true true initial_world
    = (Raise SystemExit,
       push_out conversion_error (push_time (PyStr "1.50") initial_world)).
Proof. vm_compute. repeat split; reflexivity. Qed.
